(** * color_extractor.py: two readable colours from an image

    A shallow embedding of [sketchybar/.config/sketchybar/scripts/
    color_extractor.py] and the proofs of its specification.

    Python [int]s are [Z]; Python [float]s are IEEE 754 binary64 numbers,
    here the primitive [float]s of the kernel, so that every arithmetic
    operation of the script is evaluated bit for bit.  A colour is a tuple
    of three [int]s.  [Counter] is an association list in first-insertion
    order (the order [most_common] falls back to on equal counts).  The C
    library's [pow] is the one operation taken as a parameter. *)

From Stdlib Require Import ZArith List Bool String Ascii Lia.
From Stdlib Require Import Floats Uint63 HexString Strings.Byte Sorted.
From Stdlib Require Import Permutation.
Import ListNotations.

Set Warnings "-inexact-float,-abstract-large-number".

#[local] Open Scope Z_scope.

(** ** Python numbers *)

Module Py.

(** [float(n)] for an [int] of magnitude below [2^63]; every integer the
    script converts is far below [2^53], where the conversion is exact. *)
Definition float_of_int (n : Z) : float :=
  match n with
  | Z0 => 0%float
  | Zpos _ => of_uint63 (Uint63.of_Z n)
  | Zneg p => (- of_uint63 (Uint63.of_Z (Zpos p)))%float
  end.

(** [int(x)]: truncation toward zero.  Python raises on NaN and on the
    infinities; the script only truncates [c * 0.75] for an integer
    channel [c], which is finite, and the model answers [0] there. *)
Definition int_of_float (x : float) : Z :=
  match Prim2SF x with
  | S754_finite s m e =>
      let a := Z.shiftl (Zpos m) e in if s then - a else a
  | _ => 0
  end.

(** Comparisons of two floats, as [float_richcompare] makes them. *)
Definition ge (x y : float) : bool := PrimFloat.leb y x.
Definition gt (x y : float) : bool := PrimFloat.ltb y x.
Definition le (x y : float) : bool := PrimFloat.leb x y.
Definition lt (x y : float) : bool := PrimFloat.ltb x y.

(** The builtins [max(a, b)] and [min(a, b)]: the first argument is kept
    unless the second one is strictly better. *)
Definition max (a b : float) : float := if gt b a then b else a.
Definition min (a b : float) : float := if lt b a then b else a.

Section Pow.

(** The C library's [pow], which CPython calls for the general case. *)
Variable libm_pow : float -> float -> float.

(** [x ** y] on floats ([float_pow] of CPython's floatobject.c) for a
    finite base [x >= 0] and a finite exponent [y > 0], the only
    arguments the script passes: [v ** 0] is [1], [0 ** w] is [0] for a
    positive [w] that is no odd integer, [1 ** w] is [1], and every
    other case is left to the C library. *)
Definition float_pow (iv iw : float) : float :=
  if PrimFloat.eqb iw 0 then 1%float
  else if PrimFloat.eqb iv 0 then 0%float
  else if PrimFloat.eqb iv 1 then 1%float
  else libm_pow iv iw.

End Pow.

End Py.

(** ** Colours *)

Definition color : Type := Z * Z * Z.

Definition map3 {A B : Type} (f : A -> B) (t : A * A * A) : B * B * B :=
  let '(x, y, z) := t in (f x, f y, f z).

Definition color_eqb (a b : color) : bool :=
  let '(r1, g1, b1) := a in
  let '(r2, g2, b2) := b in
  (r1 =? r2) && (g1 =? g2) && (b1 =? b2).

(** A channel as PIL's "RGB" mode stores it. *)
Definition channel8 (c : Z) : Prop := 0 <= c <= 255.

Definition rgb8 (p : color) : Prop :=
  let '(r, g, b) := p in channel8 r /\ channel8 g /\ channel8 b.

(** ** Color math helpers *)

Section ColorMath.

Variable libm_pow : float -> float -> float.

#[local] Notation "x ** y" := (Py.float_pow libm_pow x y)
  (at level 30, right associativity).
#[local] Notation "' n" := (Py.float_of_int n) (at level 1, format "' n").

Definition linearize (c : Z) : float :=
  let c := ('c / 255.0)%float in
  if Py.le c 0.03928
  then (c / 12.92)%float
  else (((c + 0.055) / 1.055) ** 2.4)%float.

Definition relative_luminance (r g b : Z) : float :=
  (0.2126 * linearize r + 0.7152 * linearize g + 0.0722 * linearize b)%float.

Definition contrast_ratio (c1 c2 : color) : float :=
  let '(r1, g1, b1) := c1 in
  let '(r2, g2, b2) := c2 in
  let l1 := relative_luminance r1 g1 b1 in
  let l2 := relative_luminance r2 g2 b2 in
  let lighter := Py.max l1 l2 in
  let darker := Py.min l1 l2 in
  ((lighter + 0.05) / (darker + 0.05))%float.

(** The sum under the root of [color_distance]. *)
Definition redmean_sum (c1 c2 : color) : float :=
  let '(r1, g1, b1) := c1 in
  let '(r2, g2, b2) := c2 in
  let rmean := ('(r1 + r2) / '2)%float in
  let dr := r1 - r2 in
  let dg := g1 - g2 in
  let db := b1 - b2 in
  ((2 + rmean / 256) * '(dr ^ 2)
   + '(4 * dg ^ 2)
   + (2 + (255 - rmean) / 256) * '(db ^ 2))%float.

Definition color_distance (c1 c2 : color) : float :=
  (redmean_sum c1 c2 ** 0.5)%float.

Definition brightness (c : color) : float :=
  let '(r, g, b) := c in
  (0.299 * 'r + 0.587 * 'g + 0.114 * 'b)%float.

End ColorMath.

(** [quantize(rgb, step)]: the centre of the bucket of each channel.
    Python's [//] is [Z.div] for a non-zero divisor. *)
Definition quantize_channel (step c : Z) : Z :=
  Z.min 255 ((c / step) * step + step / 2).

Definition quantize_step (step : Z) (rgb : color) : color :=
  map3 (quantize_channel step) rgb.

Definition quantize (rgb : color) : color := quantize_step 24 rgb.

(** ** The histogram *)

(** [mapping[elem] = mapping.get(elem, 0) + 1] on a dict kept as the list
    of its items in insertion order: a known key keeps its place. *)
Fixpoint count_elem (elem : color) (mapping : list (color * Z))
  : list (color * Z) :=
  match mapping with
  | [] => [(elem, 1)]
  | (k, n) :: rest =>
      if color_eqb k elem then (k, n + 1) :: rest
      else (k, n) :: count_elem elem rest
  end.

(** [Counter(iterable)]. *)
Definition Counter (iterable : list color) : list (color * Z) :=
  fold_left (fun mapping elem => count_elem elem mapping) iterable [].

(** One step of a stable sort by count, largest first: the new item goes
    before the first item whose count is not larger than its own. *)
Fixpoint insert_by_count (x : color * Z) (l : list (color * Z))
  : list (color * Z) :=
  match l with
  | [] => [x]
  | y :: l' =>
      if snd y <=? snd x then x :: y :: l' else y :: insert_by_count x l'
  end.

(** [counts.most_common()], that is
    [sorted(counts.items(), key=itemgetter(1), reverse=True)]: a stable
    sort, so items of equal count stay in insertion order. *)
Definition most_common (counts : list (color * Z)) : list (color * Z) :=
  fold_right insert_by_count [] counts.

(** ** Formatting *)

(** [format(n, "02x")]: lowercase hexadecimal digits, the sign of a
    negative number, and zeros up to a width of two characters. *)
Definition format_02x (n : Z) : string :=
  match n with
  | Z0 => "00"
  | Zpos p =>
      let digits := HexString.Raw.of_pos p "" in
      if (String.length digits <? 2)%nat then "0" ++ digits else digits
  | Zneg p => "-" ++ HexString.Raw.of_pos p ""
  end.

(** [f"0xff{c[0]:02x}{c[1]:02x}{c[2]:02x}"]. *)
Definition format_color (c : color) : string :=
  let '(r, g, b) := c in
  "0xff" ++ format_02x r ++ format_02x g ++ format_02x b.

(** ** Images, as far as the script looks at them *)

(** An image in PIL's "RGB" mode: a size and three bytes per pixel. *)
Record image : Type := {
  img_width : nat;
  img_height : nat;
  img_pixel : nat -> nat -> byte * byte * byte
}.

Definition int_of_byte (b : byte) : Z := Z.of_N (Byte.to_N b).

(** [img.getdata()]: the pixels row after row, each a tuple of ints. *)
Definition getdata (img : image) : list color :=
  flat_map
    (fun y => map (fun x => map3 int_of_byte (img_pixel img x y))
                  (seq 0 (img_width img)))
    (seq 0 (img_height img)).

(** ** Core extraction *)

Definition dark_companion : color := (30, 30, 30).
Definition light_companion : color := (230, 230, 230).

(** The pair of line 93. *)
Definition fallback_pair : string * string :=
  ("0xff888888", "0xff222222")%string.

Section Extraction.

Variable libm_pow : float -> float -> float.

#[local] Abbreviation contrast_ratio := (contrast_ratio libm_pow).
#[local] Abbreviation color_distance := (color_distance libm_pow).
#[local] Notation "' n" := (Py.float_of_int n) (at level 1, format "' n").

(** [for color, _ in candidates: if <both thresholds>: secondary = color;
    break], with [secondary = None] before the loop: the value of
    [secondary] after it. *)
Fixpoint scan_pass (primary : color) (contrast distance : float)
    (candidates : list (color * Z)) : option color :=
  match candidates with
  | [] => None
  | (color, _) :: rest =>
      if Py.ge (contrast_ratio primary color) contrast
         && Py.ge (color_distance primary color) distance
      then Some color
      else scan_pass primary contrast distance rest
  end.

(** Lines 95 to 118: [primary] and [secondary] of a ranked histogram
    that is not empty. *)
Definition choose_pair (min_contrast : float) (min_distance : Z)
    (primary : color) (others : list (color * Z)) : color * color :=
  (* strict pass *)
  let secondary := scan_pass primary min_contrast 'min_distance others in
  (* relaxed pass *)
  let secondary :=
    match secondary with
    | None => scan_pass primary 2.0 ('min_distance * 0.5)%float others
    | Some _ => secondary
    end in
  (* last resort: synthesize *)
  let secondary :=
    match secondary with
    | None =>
        if Py.gt (brightness primary) '127 then dark_companion
        else light_companion
    | Some c => c
    end in
  (primary, secondary).

(** Lines 120 to 124: lighter to foreground, darker to background. *)
Definition assign_roles (pair : color * color) : color * color :=
  let '(primary, secondary) := pair in
  if Py.ge (brightness primary) (brightness secondary)
  then (primary, secondary)
  else (secondary, primary).

(** Line 127: [max(0, int(c * 0.75))]. *)
Definition darken_channel (c : Z) : Z :=
  Z.max 0 (Py.int_of_float ('c * 0.75)%float).

Definition darken (background : color) : color :=
  map3 darken_channel background.

(** Lines 92 to 131, from the ranked histogram on. *)
Definition colors_of_ranked (min_contrast : float) (min_distance : Z)
    (ranked : list (color * Z)) : string * string :=
  match ranked with
  | [] => fallback_pair
  | (primary, _) :: others =>
      let '(foreground, background) :=
        assign_roles (choose_pair min_contrast min_distance primary others) in
      let background := darken background in
      (format_color foreground, format_color background)
  end.

(** Lines 88 to 90. *)
Definition ranked_histogram (data : list color) : list (color * Z) :=
  let quantized := map quantize data in
  let counts := Counter quantized in
  most_common counts.

Definition colors_of_data (min_contrast : float) (min_distance : Z)
    (data : list color) : string * string :=
  colors_of_ranked min_contrast min_distance (ranked_histogram data).

(** PIL, as far as the script relies on it: [Image.open(path)
    .convert("RGB")] decodes a file or raises, and [resize((w, h))]
    resamples to an image of that size. *)
Variable Image_open_RGB : string -> option image.
Variable resample : image -> nat -> nat -> nat -> nat -> byte * byte * byte.

Definition resize (img : image) (w h : nat) : image :=
  {| img_width := w; img_height := h; img_pixel := resample img w h |}.

(** [extract_colors(image_path, min_contrast, min_distance)]; [None] is
    the exception of a failed load, which the function lets through. *)
Definition extract_colors_with (min_contrast : float) (min_distance : Z)
    (image_path : string) : option (string * string) :=
  match Image_open_RGB image_path with
  | None => None
  | Some img =>
      let img := resize img 80 80 in
      Some (colors_of_data min_contrast min_distance (getdata img))
  end.

(** The call of the command line, [extract_colors(sys.argv[1])], with
    the defaults [min_contrast=3.0] and [min_distance=80]. *)
Definition extract_colors (image_path : string) : option (string * string) :=
  extract_colors_with 3.0 80 image_path.

End Extraction.

(** ** Vocabulary of the specification *)

Section Tiers.

Variable libm_pow : float -> float -> float.

(** A candidate meets a contrast and a distance threshold. *)
Definition passes (primary : color) (contrast distance : float)
    (candidate : color) : Prop :=
  Py.ge (contrast_ratio libm_pow primary candidate) contrast = true
  /\ Py.ge (color_distance libm_pow primary candidate) distance = true.

(** The strict tier's test: contrast at least 3.0 and distance at least
    80. *)
Definition strict_ok (primary candidate : color) : Prop :=
  passes primary 3.0 80 candidate.

(** The relaxed tier's test: contrast at least 2.0 and distance at least
    40. *)
Definition relaxed_ok (primary candidate : color) : Prop :=
  passes primary 2.0 40 candidate.

End Tiers.

(** [c] is the first bucket of [candidates], in their order, that passes
    [ok]. *)
Definition first_accepted (ok : color -> Prop)
    (candidates : list (color * Z)) (c : color) : Prop :=
  exists before n after,
    candidates = before ++ (c, n) :: after
    /\ ok c
    /\ Forall (fun x => ~ ok (fst x)) before.

Definition none_accepted (ok : color -> Prop)
    (candidates : list (color * Z)) : Prop :=
  Forall (fun x => ~ ok (fst x)) candidates.

(** The order of the ranking: by count, largest first. *)
Definition count_ge (a b : color * Z) : Prop := snd b <= snd a.

(** The synthetic tier's colour. *)
Definition synthetic_companion (primary : color) : color :=
  if Py.gt (brightness primary) 127 then (30, 30, 30) else (230, 230, 230).

(** [max(0, floor(c * 0.75))] on integers. *)
Definition three_quarters_floor (c : Z) : Z := Z.max 0 (3 * c / 4).

(** Reading an emitted string back: the value of two hexadecimal digits,
    and the three channels after the prefix [0xff]. *)
Definition hex_pair (a b : ascii) : Z :=
  Z.of_N (HexString.Raw.to_N (String a (String b EmptyString)) 0).

Definition channels_of_hex (s : string) : option color :=
  match s with
  | String "0" (String "x" (String "f" (String "f"
      (String r1 (String r2 (String g1 (String g2
        (String b1 (String b2 EmptyString))))))))) =>
      Some (hex_pair r1 r2, hex_pair g1 g2, hex_pair b1 b2)
  | _ => None
  end.

(** What the proofs ask of the C library's [pow]: a base in (0, 1] raised
    to a positive exponent stays in [0, 1]. *)
Definition pow_within_unit (libm_pow : float -> float -> float) : Prop :=
  forall x y,
    Py.lt 0 x = true -> Py.le x 1 = true -> Py.lt 0 y = true ->
    Py.le 0 (libm_pow x y) = true /\ Py.le (libm_pow x y) 1 = true.

(** The 256 channel values, the 11 bucket centres of [quantize], and the
    channel values a chosen colour can have. *)
Definition all_channels : list Z := map Z.of_nat (seq 0 256).

Definition bucket_levels : list Z :=
  [12; 36; 60; 84; 108; 132; 156; 180; 204; 228; 252].

Definition palette_channels : list Z := bucket_levels ++ [30; 230].

Definition in_palette (c : color) : Prop :=
  let '(r, g, b) := c in
  In r palette_channels /\ In g palette_channels /\ In b palette_channels.

(** ** Binary64 numbers by their magnitude *)

Module Binary64.

(** The exponent [shr_fexp] settles on. *)
Definition next_exp (m e : Z) : Z :=
  e + Z.max 0 (SpecFloat.fexp prec emax (Zdigits2 m + e) - e).

(** Non-negative numbers below [2^E]: a zero, or a finite number
    [m * 2^e] with [e] no smaller than the least exponent. *)
Definition small (E : Z) (x : spec_float) : Prop :=
  match x with
  | S754_zero _ => True
  | S754_finite s m e => s = false /\ -1074 <= e /\ Zpos m < 2 ^ (E - e)
  | _ => False
  end.

Definition smallb (E : Z) (x : spec_float) : bool :=
  match x with
  | S754_zero _ => true
  | S754_finite s m e => negb s && (-1074 <=? e) && (Zpos m <? 2 ^ (E - e))
  | _ => false
  end.

Definition positive_finite (x : spec_float) : Prop :=
  match x with S754_finite false _ _ => True | _ => False end.

Definition fsmall (E : Z) (x : float) : Prop := small E (Prim2SF x).

End Binary64.

(** ** Checks by enumeration of the channel values *)

(** [linearize] either divides, giving a value in [0, 1], or raises a
    base in (0, 1] to the power 2.4. *)
Definition linearize_check (c : Z) : bool :=
  let c := (Py.float_of_int c / 255.0)%float in
  if Py.le c 0.03928
  then Py.le 0 (c / 12.92) && Py.le (c / 12.92) 1
  else Py.lt 0 ((c + 0.055) / 1.055) && Py.le ((c + 0.055) / 1.055) 1.

(** The sum under the root for a colour and itself depends on the red
    channel only. *)
Definition self_sum (r : Z) : float :=
  ((2 + (Py.float_of_int (r + r) / Py.float_of_int 2) / 256)
     * Py.float_of_int (0 ^ 2)
   + Py.float_of_int (4 * 0 ^ 2)
   + (2 + (255 - (Py.float_of_int (r + r) / Py.float_of_int 2)) / 256)
     * Py.float_of_int (0 ^ 2))%float.

Definition two_digits_check (c : Z) : bool :=
  match format_02x c with
  | String a (String b EmptyString) => hex_pair a b =? c
  | _ => false
  end.

(** ** Sample inputs *)

(** A stand-in for the C library's [pow] on the two exponents the script
    uses: the square root for 0.5 and, for 2.4, the power 19/8 built from
    square roots; on a base in (0, 1] a result outside [0, 1] becomes 1. *)
Definition pow_sample (x y : float) : float :=
  let s2 := PrimFloat.sqrt x in
  let s8 := PrimFloat.sqrt (PrimFloat.sqrt s2) in
  let r := if PrimFloat.eqb y 0.5 then s2 else (x * x * (s8 * s8 * s8))%float in
  if Py.lt 0 x && Py.le x 1 && negb (Py.le 0 r && Py.le r 1)
  then 1%float else r.

Definition data_sample : list color :=
  [(250, 250, 250); (10, 20, 30); (12, 22, 28); (250, 250, 250); (200, 30, 40)].

Definition image_sample : image :=
  {| img_width := 2; img_height := 1;
     img_pixel := fun x _ => if Nat.eqb x 0 then (x00, x00, x00)%byte
                             else (xff, xff, xff)%byte |}.

(** A file system with one file, whatever its name. *)
Definition open_sample (path : string) : option image := Some image_sample.

Definition resample_nearest (img : image) (w h x y : nat)
  : byte * byte * byte :=
  img_pixel img (x * img_width img / w)%nat (y * img_height img / h)%nat.

(** ** CLI entry *)

(** What a run of the script leaves behind: the lines printed on standard
    output and on standard error, and the exit code. *)
Record outcome : Type := {
  out_stdout : list string;
  out_stderr : list string;
  out_exit : Z
}.

Definition usage_line : string :=
  "Usage: python3 color_extractor.py <image_path>".

Section CLI.

Variable libm_pow : float -> float -> float.

(** [Image.open(path).convert("RGB")]: the image, or the text [str(e)] of
    the exception it raises. *)
Variable Image_open_RGB_result : string -> string + image.
Variable resample : image -> nat -> nat -> nat -> nat -> byte * byte * byte.

(** The same loader with the exception's text forgotten. *)
Definition Image_open_of_result (path : string) : option image :=
  match Image_open_RGB_result path with
  | inl _ => None
  | inr img => Some img
  end.

(** [extract_colors(sys.argv[1])] under [try]: the pair returned, or the
    text of the exception that reaches [except Exception as e]. *)
Definition try_extract_colors (image_path : string)
  : string + (string * string) :=
  match Image_open_RGB_result image_path with
  | inl message => inl message
  | inr img =>
      let img := resize resample img 80 80 in
      inr (colors_of_data libm_pow 3.0 80 (getdata img))
  end.

(** Lines 138 to 149, for [sys.argv = argv]. *)
Definition main (argv : list string) : outcome :=
  match argv with
  | _ :: image_path :: _ =>
      match try_extract_colors image_path with
      | inr (fg, bg) =>
          {| out_stdout := [("DOMINANT=" ++ fg)%string;
                            ("BACKGROUND=" ++ bg)%string];
             out_stderr := [];
             out_exit := 0 |}
      | inl message =>
          {| out_stdout := [];
             out_stderr := [("Error: " ++ message)%string];
             out_exit := 1 |}
      end
  | _ =>
      {| out_stdout := []; out_stderr := [usage_line]; out_exit := 1 |}
  end.

End CLI.

(** ** More vocabulary *)

Definition color_eq_dec (a b : color) : {a = b} + {a <> b}.
Proof. repeat decide equality. Defined.

(** [counts[k]], which is 0 for a key the [Counter] does not hold. *)
Fixpoint count_for (k : color) (mapping : list (color * Z)) : Z :=
  match mapping with
  | [] => 0
  | (k', n) :: rest => if color_eqb k' k then n else count_for k rest
  end.

(** [sum(counts.values())]. *)
Definition total_count (mapping : list (color * Z)) : Z :=
  fold_right (fun item acc => snd item + acc) 0 mapping.

(** The 11 * 11 * 11 buckets of [quantize] on 8-bit colours. *)
Definition all_buckets : list color :=
  list_prod (list_prod bucket_levels bucket_levels) bucket_levels.

(** The pattern [0x[0-9a-f]{8}] of the two output lines, alpha [ff]. *)
Definition is_lower_hex (a : ascii) : bool :=
  let n := nat_of_ascii a in
  ((48 <=? n) && (n <=? 57) || (97 <=? n) && (n <=? 102))%nat.

Definition is_color_string (s : string) : bool :=
  match s with
  | String "0" (String "x" (String "f" (String "f"
      (String r1 (String r2 (String g1 (String g2
        (String b1 (String b2 EmptyString))))))))) =>
      forallb is_lower_hex [r1; r2; g1; g2; b1; b2]
  | _ => false
  end.

Definition two_hex_digits_check (c : Z) : bool :=
  match format_02x c with
  | String a (String b EmptyString) => is_lower_hex a && is_lower_hex b
  | _ => false
  end.

(** Which branch [linearize] takes on a channel. *)
Definition linearize_branch_check (c : Z) : bool :=
  let x := (Py.float_of_int c / 255.0)%float in
  if c <=? 10 then Py.le x 0.03928
  else negb (Py.le x 0.03928)
       && negb (PrimFloat.eqb ((x + 0.055) / 1.055) 0)
       && Bool.eqb (PrimFloat.eqb ((x + 0.055) / 1.055) 1) (c =? 255).

(** Every channel of a colour lies between two bounds. *)
Definition channels_within (lo hi : Z) (c : color) : Prop :=
  let '(r, g, b) := c in lo <= r <= hi /\ lo <= g <= hi /\ lo <= b <= hi.

(** A line starts with a given text. *)
Definition starts_with (pre line : string) : bool := String.prefix pre line.

(** A loader for the examples: one file decodes, any other name raises. *)
Definition open_result_sample (path : string) : string + image :=
  if String.eqb path "wallpaper.png" then inr image_sample
  else inl ("[Errno 2] No such file or directory: " ++ path)%string.

(** * Proofs *)

(** ** Rounding keeps small numbers small

    The operations of [SpecFloat], which the kernel's floats obey, keep a
    non-negative number below a power of two finite and non-negative; no
    more is needed to compare brightnesses and to divide a luminance by
    itself. *)

Module Rounding.

Import Binary64.

Lemma fexp_eq e : SpecFloat.fexp prec emax e = Z.max (e - 53) (-1074).
Proof. reflexivity. Qed.

Lemma digits2_bounds p :
  2 ^ (Zpos (digits2_pos p) - 1) <= Zpos p < 2 ^ Zpos (digits2_pos p).
Proof.
  induction p as [p IH | p IH |]; cbn [digits2_pos].
  - rewrite Pos2Z.inj_succ. change (Zpos p~1) with (2 * Zpos p + 1).
    replace (Z.succ (Zpos (digits2_pos p)) - 1)
      with (Z.succ (Zpos (digits2_pos p) - 1)) by lia.
    rewrite !Z.pow_succ_r by lia.
    revert IH. generalize (2 ^ (Zpos (digits2_pos p) - 1)) (2 ^ Zpos (digits2_pos p)).
    intros; lia.
  - rewrite Pos2Z.inj_succ. change (Zpos p~0) with (2 * Zpos p).
    replace (Z.succ (Zpos (digits2_pos p)) - 1)
      with (Z.succ (Zpos (digits2_pos p) - 1)) by lia.
    rewrite !Z.pow_succ_r by lia.
    revert IH. generalize (2 ^ (Zpos (digits2_pos p) - 1)) (2 ^ Zpos (digits2_pos p)).
    intros; lia.
  - change (2 ^ 0 <= 1 < 2 ^ 1). lia.
Qed.

(** One step of [shr] halves the mantissa. *)
Lemma shr_1_m mrs : 0 <= shr_m mrs -> shr_m (shr_1 mrs) = shr_m mrs / 2.
Proof.
  destruct mrs as [m r s]; cbn [shr_m]; intros Hm.
  destruct m as [|[p|p|]|p]; cbn [shr_1 shr_m]; try lia.
  - reflexivity.
  - change (Zpos p~1) with (2 * Zpos p + 1). apply Z.div_unique with (r := 1); lia.
  - change (Zpos p~0) with (2 * Zpos p). apply Z.div_unique with (r := 0); lia.
  - reflexivity.
Qed.

Lemma iter_shr_m p : forall mrs, 0 <= shr_m mrs ->
  shr_m (iter_pos shr_1 p mrs) = shr_m mrs / 2 ^ Zpos p.
Proof.
  assert (Hdd : forall a b c, 0 <= a -> 0 < b -> 0 < c -> a / b / c = a / (b * c)).
  { intros. apply Z.div_div; lia. }
  assert (Hp : forall q, 0 < 2 ^ Zpos q) by (intros; apply Z.pow_pos_nonneg; lia).
  induction p as [p IH | p IH |]; intros mrs Hm; cbn [iter_pos].
  - assert (H1 : 0 <= shr_m (shr_1 mrs)).
    { rewrite shr_1_m by assumption. apply Z.div_pos; lia. }
    assert (H2 : 0 <= shr_m (iter_pos shr_1 p (shr_1 mrs))).
    { rewrite IH by assumption. apply Z.div_pos; [assumption | apply Hp]. }
    rewrite IH, IH, shr_1_m by assumption.
    pose proof (Hp p) as Hpp.
    rewrite (Hdd (shr_m mrs) 2 (2 ^ Zpos p)) by lia.
    rewrite Hdd by lia.
    f_equal. replace (Zpos p~1) with (1 + Zpos p + Zpos p) by lia.
    rewrite !Z.pow_add_r, Z.pow_1_r by lia. ring.
  - assert (H2 : 0 <= shr_m (iter_pos shr_1 p mrs)).
    { rewrite IH by assumption. apply Z.div_pos; [assumption | apply Hp]. }
    rewrite IH, IH by assumption.
    pose proof (Hp p) as Hpp.
    rewrite Hdd by lia.
    f_equal. replace (Zpos p~0) with (Zpos p + Zpos p) by lia.
    rewrite Z.pow_add_r by lia. reflexivity.
  - apply shr_1_m. assumption.
Qed.

(** [shr_fexp] divides the mantissa by the power of two that brings the
    exponent up to [next_exp]. *)
Lemma shr_fexp_spec m e l : 0 <= m ->
  exists mrs,
    shr_fexp prec emax m e l
    = (mrs, e + Z.max 0 (SpecFloat.fexp prec emax (Zdigits2 m + e) - e))
    /\ shr_m mrs
       = m / 2 ^ Z.max 0 (SpecFloat.fexp prec emax (Zdigits2 m + e) - e).
Proof.
  intros Hm. unfold shr_fexp, shr.
  assert (Hrec : shr_m (shr_record_of_loc m l) = m)
    by (destruct l as [|[| |]]; reflexivity).
  destruct (SpecFloat.fexp prec emax (Zdigits2 m + e) - e) as [|n|n].
  - eexists; split; [f_equal; cbn; lia|]. cbn. rewrite Z.div_1_r. exact Hrec.
  - eexists; split; [reflexivity|].
    rewrite iter_shr_m by (rewrite Hrec; exact Hm).
    rewrite Hrec. reflexivity.
  - eexists; split; [f_equal; cbn; lia|]. cbn. rewrite Z.div_1_r. exact Hrec.
Qed.

Lemma Zdigits2_le m a : 0 <= m < 2 ^ a -> 0 <= a -> Zdigits2 m <= a.
Proof.
  intros [Hm Hlt] Ha. destruct m as [|p|p]; cbn [Zdigits2]; try lia.
  pose proof (digits2_bounds p) as [Hlo _].
  assert (H : 2 ^ (Zpos (digits2_pos p) - 1) < 2 ^ a) by lia.
  apply Z.pow_lt_mono_r_iff in H; lia.
Qed.

Lemma div_pow2_lt m a n :
  0 <= m < 2 ^ a -> 0 <= n <= a -> m / 2 ^ n < 2 ^ (a - n).
Proof.
  intros [Hm Hlt] Hn.
  apply Z.div_lt_upper_bound; [apply Z.pow_pos_nonneg; lia|].
  rewrite <- Z.pow_add_r by lia. replace (n + (a - n)) with a by lia. exact Hlt.
Qed.

Lemma round_nearest_even_bounds m l :
  m <= round_nearest_even m l <= m + 1.
Proof.
  destruct l as [|[| |]]; cbn [round_nearest_even]; try lia.
  destruct (Z.even m); lia.
Qed.


Lemma next_exp_bounds m e a :
  0 <= m < 2 ^ (a - e) -> e <= a -> -1074 <= a ->
  e <= next_exp m e <= a /\ -1074 <= next_exp m e.
Proof.
  intros Hm He Ha. unfold next_exp. rewrite fexp_eq.
  pose proof (Zdigits2_le m (a - e) Hm ltac:(lia)). lia.
Qed.

(** From the least exponent on, the shift leaves 53 digits or all of
    them: a positive mantissa stays positive. *)
Lemma shift_keeps_pos m e :
  0 < m -> -1074 <= e -> 0 < m / 2 ^ (next_exp m e - e).
Proof.
  intros Hm He. destruct m as [|p|p]; try lia.
  unfold next_exp. rewrite fexp_eq. cbn [Zdigits2].
  pose proof (digits2_bounds p) as [Hlo _].
  set (d := Zpos (digits2_pos p)) in *.
  destruct (Z.le_gt_cases d 53) as [Hd | Hd].
  - replace (e + Z.max 0 (Z.max (d + e - 53) (-1074) - e) - e) with 0 by lia.
    cbn. rewrite Z.div_1_r. lia.
  - replace (e + Z.max 0 (Z.max (d + e - 53) (-1074) - e) - e)
      with (d - 53) by lia.
    assert (H : 2 ^ (d - 53) <= 2 ^ (d - 1)) by (apply Z.pow_le_mono_r; lia).
    assert (Hp : 0 < 2 ^ (d - 53)) by (apply Z.pow_pos_nonneg; lia).
    assert (1 <= Zpos p / 2 ^ (d - 53)); [|lia].
    apply Z.div_le_lower_bound; lia.
Qed.


Lemma pow2_gt_1 a : 1 < 2 ^ a -> 0 < a.
Proof.
  intros H. destruct (Z.le_gt_cases a 0) as [Ha | Ha]; [|exact Ha].
  destruct (Z.eq_dec a 0) as [-> | Hn]; [cbn in H; lia|].
  rewrite Z.pow_neg_r in H by lia. lia.
Qed.

(** Rounding a positive number below [2^E] gives a number below
    [2^(E+1)], never an infinity, and not a zero when the exponent was in
    range. *)
Lemma round_aux_small m e l E :
  0 < m < 2 ^ (E - e) -> -1074 <= E <= 970 ->
  small (E + 1) (binary_round_aux prec emax false m e l)
  /\ (-1074 <= e ->
      positive_finite (binary_round_aux prec emax false m e l)).
Proof.
  intros [Hm Hlt] HE.
  assert (He : e < E) by (pose proof (pow2_gt_1 (E - e)); lia).
  unfold binary_round_aux.
  destruct (shr_fexp_spec m e l) as (mrs1 & Heq1 & Hm1); [lia|].
  rewrite Heq1. fold (next_exp m e) in *.
  destruct (next_exp_bounds m e E) as [He1 He1']; try lia.
  set (e1 := next_exp m e) in *.
  replace (Z.max 0 (SpecFloat.fexp prec emax (Zdigits2 m + e) - e))
    with (e1 - e) in Hm1 by (unfold e1, next_exp; lia).
  assert (Hb1 : 0 <= shr_m mrs1 < 2 ^ (E - e1)).
  { rewrite Hm1. split.
    - apply Z.div_pos; [lia | apply Z.pow_pos_nonneg; lia].
    - replace (E - e1) with (E - e - (e1 - e)) by lia.
      apply div_pow2_lt; lia. }
  pose proof (round_nearest_even_bounds (shr_m mrs1) (loc_of_shr_record mrs1))
    as Hr.
  set (m2 := round_nearest_even (shr_m mrs1) (loc_of_shr_record mrs1)) in *.
  assert (Hb2 : 0 <= m2 < 2 ^ (E + 1 - e1)).
  { replace (E + 1 - e1) with (Z.succ (E - e1)) by lia.
    rewrite Z.pow_succ_r by lia. lia. }
  destruct (shr_fexp_spec m2 e1 loc_Exact) as (mrs2 & Heq2 & Hm2); [lia|].
  rewrite Heq2. fold (next_exp m2 e1) in *.
  destruct (next_exp_bounds m2 e1 (E + 1)) as [He2 He2']; try lia.
  set (e2 := next_exp m2 e1) in *.
  replace (Z.max 0 (SpecFloat.fexp prec emax (Zdigits2 m2 + e1) - e1))
    with (e2 - e1) in Hm2 by (unfold e2, next_exp; lia).
  assert (Hb3 : 0 <= shr_m mrs2 < 2 ^ (E + 1 - e2)).
  { rewrite Hm2. split.
    - apply Z.div_pos; [lia | apply Z.pow_pos_nonneg; lia].
    - replace (E + 1 - e2) with (E + 1 - e1 - (e2 - e1)) by lia.
      apply div_pow2_lt; lia. }
  assert (Hfit : (e2 <=? emax - prec) = true)
    by (apply Z.leb_le; change (emax - prec) with 971; lia).
  split.
  - destruct (shr_m mrs2) as [|q|q]; cbn [small]; [exact I | | lia].
    rewrite Hfit. cbn [small]. repeat split; lia.
  - intros Hemin.
    assert (H1 : 0 < shr_m mrs1)
      by (rewrite Hm1; apply shift_keeps_pos; lia).
    assert (H3 : 0 < shr_m mrs2)
      by (rewrite Hm2; apply shift_keeps_pos; lia).
    destruct (shr_m mrs2) as [|q|q]; try lia.
    rewrite Hfit. exact I.
Qed.

Lemma small_weaken E E' x : small E x -> E <= E' -> small E' x.
Proof.
  destruct x as [| | |s m e]; cbn [small]; try tauto.
  intros (Hs & He & Hm) HE. repeat split; try assumption.
  assert (0 < E - e) by (apply pow2_gt_1; lia).
  assert (2 ^ (E - e) <= 2 ^ (E' - e)) by (apply Z.pow_le_mono_r; lia).
  lia.
Qed.

Lemma SFmul_small E1 E2 x y :
  small E1 x -> small E2 y -> -1074 <= E1 + E2 <= 970 ->
  small (E1 + E2 + 1) (SF64mul x y).
Proof.
  destruct x as [| | |sx mx ex], y as [| | |sy my ey];
    cbn [small SF64mul SFmul]; try tauto.
  intros (-> & Hex & Hmx) (-> & Hey & Hmy) HE.
  apply round_aux_small; [|exact HE].
  assert (0 < E1 - ex) by (apply pow2_gt_1; lia).
  assert (0 < E2 - ey) by (apply pow2_gt_1; lia).
  replace (E1 + E2 - (ex + ey)) with ((E1 - ex) + (E2 - ey)) by lia.
  rewrite Z.pow_add_r, Pos2Z.inj_mul by lia.
  split; [lia|]. apply Z.mul_lt_mono_nonneg; lia.
Qed.

Lemma iter_xO m d : Zpos (Pos.iter xO m d) = Zpos m * 2 ^ Zpos d.
Proof.
  induction d as [|d IH] using Pos.peano_ind.
  - cbn [Pos.iter]. change (Zpos m~0) with (2 * Zpos m).
    change (2 ^ 1) with 2. ring.
  - rewrite Pos.iter_succ, Pos2Z.inj_succ, Z.pow_succ_r by lia.
    change (Zpos (Pos.iter xO m d)~0) with (2 * Zpos (Pos.iter xO m d)).
    rewrite IH. ring.
Qed.

Lemma shl_align_spec m e e' :
  exists m', shl_align m e e' = (m', Z.min e e')
             /\ Zpos m' = Zpos m * 2 ^ (e - Z.min e e').
Proof.
  unfold shl_align. destruct (e' - e) as [|d|d] eqn:Hd.
  - exists m. replace (Z.min e e') with e by lia.
    rewrite Z.sub_diag. split; [reflexivity | cbn; lia].
  - exists m. replace (Z.min e e') with e by lia.
    rewrite Z.sub_diag. split; [reflexivity | cbn; lia].
  - exists (Pos.iter xO m d). replace (Z.min e e') with e' by lia.
    split; [reflexivity|]. rewrite iter_xO. f_equal. f_equal. lia.
Qed.

Lemma binary_round_small q e E :
  Zpos q < 2 ^ (E - e) -> -1074 <= e -> -1074 <= E <= 970 ->
  small (E + 1) (binary_round prec emax false q e)
  /\ positive_finite (binary_round prec emax false q e).
Proof.
  intros Hq He HE. unfold binary_round.
  destruct (shl_align_spec q e
              (SpecFloat.fexp prec emax (Zpos (digits2_pos q) + e)))
    as (mz & -> & Hmz).
  rewrite fexp_eq in *.
  set (ez := Z.min e (Z.max (Zpos (digits2_pos q) + e - 53) (-1074))) in *.
  assert (0 < E - e) by (apply pow2_gt_1; lia).
  assert (Hlt : 0 < Zpos mz < 2 ^ (E - ez)).
  { split; [lia|]. rewrite Hmz.
    replace (E - ez) with ((E - e) + (e - ez)) by lia.
    rewrite Z.pow_add_r by lia.
    apply Z.mul_lt_mono_pos_r; [apply Z.pow_pos_nonneg; lia | exact Hq]. }
  destruct (round_aux_small (Zpos mz) ez loc_Exact E Hlt HE) as [Hs Hp].
  split; [exact Hs | apply Hp; lia].
Qed.

Lemma SFadd_small E x y :
  small E x -> small E y -> -1074 <= E + 1 <= 970 ->
  small (E + 2) (SF64add x y)
  /\ (positive_finite x \/ positive_finite y ->
      positive_finite (SF64add x y)).
Proof.
  intros Hx Hy HE.
  destruct x as [sx| | |sx mx ex], y as [sy| | |sy my ey];
    cbn [small] in Hx, Hy; try tauto.
  - split; [destruct sx, sy; exact I | cbn; tauto].
  - split; [apply (small_weaken E); [exact Hy | lia]|].
    destruct Hy as (-> & _). intros _. exact I.
  - split; [apply (small_weaken E); [exact Hx | lia]|].
    destruct Hx as (-> & _). intros _. exact I.
  - destruct Hx as (-> & Hex & Hmx), Hy as (-> & Hey & Hmy).
    cbn [SF64add SFadd].
    destruct (shl_align_spec mx ex (Z.min ex ey)) as (mx' & -> & Hmx').
    destruct (shl_align_spec my ey (Z.min ex ey)) as (my' & -> & Hmy').
    cbn [fst cond_Zopp]. change (Zpos mx' + Zpos my') with (Zpos (mx' + my')).
    cbn [binary_normalize].
    replace (Z.min ex (Z.min ex ey)) with (Z.min ex ey) in Hmx' by lia.
    replace (Z.min ey (Z.min ex ey)) with (Z.min ex ey) in Hmy' by lia.
    set (ez := Z.min ex ey) in *.
    assert (0 < E - ex) by (apply pow2_gt_1; lia).
    assert (0 < E - ey) by (apply pow2_gt_1; lia).
    assert (Hbx : Zpos mx' < 2 ^ (E - ez)).
    { rewrite Hmx'. replace (E - ez) with ((E - ex) + (ex - ez)) by lia.
      rewrite Z.pow_add_r by lia.
      apply Z.mul_lt_mono_pos_r; [apply Z.pow_pos_nonneg; lia | exact Hmx]. }
    assert (Hby : Zpos my' < 2 ^ (E - ez)).
    { rewrite Hmy'. replace (E - ez) with ((E - ey) + (ey - ez)) by lia.
      rewrite Z.pow_add_r by lia.
      apply Z.mul_lt_mono_pos_r; [apply Z.pow_pos_nonneg; lia | exact Hmy]. }
    assert (Hsum : Zpos (mx' + my') < 2 ^ (E + 1 - ez)).
    { replace (E + 1 - ez) with (Z.succ (E - ez)) by lia.
      rewrite Z.pow_succ_r, Pos2Z.inj_add by lia. lia. }
    destruct (binary_round_small (mx' + my') ez (E + 1) Hsum) as [Hs Hp];
      try lia.
    replace (E + 2) with (E + 1 + 1) by lia.
    split; [exact Hs | intros _; exact Hp].
Qed.

Lemma div_eucl_mul a b : 0 < b -> Z.div_eucl (a * b) b = (a, 0).
Proof.
  intros Hb. pose proof (Z.div_mul a b ltac:(lia)) as Hq.
  pose proof (Z.mod_mul a b ltac:(lia)) as Hr.
  unfold Z.div, Z.modulo in Hq, Hr.
  destruct (Z.div_eucl (a * b) b) as [q r]. congruence.
Qed.

(** A finite number divided by itself: the quotient of the mantissas is
    exact. *)
Lemma SFdiv_self s m e :
  SF64div (S754_finite s m e) (S754_finite s m e) = Prim2SF 1.
Proof.
  cbn [SF64div SFdiv]. unfold SFdiv_core_binary. cbn [Zdigits2].
  rewrite !Z.sub_diag.
  change (Z.min (SpecFloat.fexp prec emax 0) 0) with (-53).
  change (0 - -53) with 53. cbv iota.
  rewrite Z.shiftl_mul_pow2 by lia.
  rewrite (Z.mul_comm (Zpos m)), div_eucl_mul by lia.
  assert (Hloc : new_location (Zpos m) 0 = loc_Exact)
    by (unfold new_location; destruct (Z.even (Zpos m)); reflexivity).
  rewrite Hloc. destruct s; reflexivity.
Qed.

(** *** The same facts on primitive floats *)


Lemma div_self x :
  positive_finite (Prim2SF x) -> (x / x)%float = 1%float.
Proof.
  intros H. apply Prim2SF_inj. rewrite FloatAxioms.div_spec.
  destruct (Prim2SF x) as [| | |s m e]; cbn in H; try contradiction.
  apply SFdiv_self.
Qed.

Lemma mul_small E1 E2 x y :
  fsmall E1 x -> fsmall E2 y -> -1074 <= E1 + E2 <= 970 ->
  fsmall (E1 + E2 + 1) (x * y).
Proof. unfold fsmall. rewrite FloatAxioms.mul_spec. apply SFmul_small. Qed.

Lemma add_small E x y :
  fsmall E x -> fsmall E y -> -1074 <= E + 1 <= 970 ->
  fsmall (E + 2) (x + y).
Proof. unfold fsmall. rewrite FloatAxioms.add_spec. intros. now apply SFadd_small. Qed.

Lemma add_positive E x y :
  fsmall E x -> fsmall E y -> -1074 <= E + 1 <= 970 ->
  positive_finite (Prim2SF y) -> positive_finite (Prim2SF (x + y)).
Proof.
  unfold fsmall. rewrite FloatAxioms.add_spec. intros Hx Hy HE Hp.
  apply (SFadd_small E); auto.
Qed.

Lemma fsmall_weaken E E' x : fsmall E x -> E <= E' -> fsmall E' x.
Proof. apply small_weaken. Qed.

(** A float between [0] and [1] is [small 1]. *)
Lemma unit_small p :
  (0 <=? p)%float = true -> (p <=? 1)%float = true -> fsmall 1 p.
Proof.
  rewrite !FloatAxioms.leb_spec. unfold fsmall.
  pose proof (Prim2SF_valid p) as Hv.
  change (Prim2SF 0) with (S754_zero false).
  change (Prim2SF 1) with (S754_finite false 4503599627370496 (-52)).
  destruct (Prim2SF p) as [s|s| |s m e]; cbn [small];
    try exact (fun _ _ => I); try (destruct s; discriminate);
    try discriminate.
  cbn [valid_binary] in Hv. unfold bounded, canonical_mantissa in Hv.
  apply andb_prop in Hv as [Hc _]. apply Z.eqb_eq in Hc.
  rewrite fexp_eq in Hc.
  pose proof (digits2_bounds m) as [_ Hd].
  destruct s; [discriminate|]. intros _ Hle.
  unfold SFleb, SFcompare in Hle.
  assert (He : e <= -52).
  { destruct (Z.compare_spec e (-52)); try lia; discriminate. }
  repeat split; try lia.
  assert (2 ^ Zpos (digits2_pos m) <= 2 ^ (1 - e))
    by (apply Z.pow_le_mono_r; lia).
  lia.
Qed.

(** Two small floats are comparable. *)
Lemma leb_false_gt E1 E2 x y :
  fsmall E1 x -> fsmall E2 y ->
  (x <=? y)%float = false ->
  (y <? x)%float = true /\ (y <=? x)%float = true.
Proof.
  rewrite !FloatAxioms.leb_spec, FloatAxioms.ltb_spec. unfold fsmall, SFleb, SFltb.
  destruct (Prim2SF x) as [sx| | |sx mx ex], (Prim2SF y) as [sy| | |sy my ey];
    cbn [small SFcompare]; try tauto; try discriminate.
  - intros _ (-> & _); discriminate.
  - intros (-> & _) _ _; split; reflexivity.
  - intros (-> & _) (-> & _).
    rewrite (Z.compare_antisym ex ey).
    destruct (ex ?= ey); cbn [CompOpp]; try discriminate;
      try (split; reflexivity).
    change (Pos.compare_cont Eq my mx) with (Pos.compare my mx).
    change (Pos.compare_cont Eq mx my) with (Pos.compare mx my).
    rewrite (Pos.compare_antisym mx my).
    destruct (mx ?= my)%positive; cbn [CompOpp]; try discriminate;
      split; reflexivity.
Qed.

Lemma smallb_small E x : smallb E x = true -> small E x.
Proof.
  destruct x as [| | |s m e]; cbn [smallb small]; try discriminate; auto.
  intros H. apply andb_prop in H as [H Hm]. apply andb_prop in H as [Hs He].
  apply negb_true_iff in Hs. apply Z.leb_le in He. apply Z.ltb_lt in Hm.
  auto.
Qed.

End Rounding.

(** ** Facts checked over the 256 channel values *)

Lemma channel8_in c : channel8 c -> In c all_channels.
Proof.
  intros [H0 H1]. unfold all_channels.
  rewrite <- (Z2Nat.id c) by lia. apply in_map, in_seq. lia.
Qed.

Lemma all_channels_forallb (f : Z -> bool) :
  forallb f all_channels = true -> forall c, channel8 c -> f c = true.
Proof.
  intros H c Hc. rewrite forallb_forall in H. apply H, channel8_in, Hc.
Qed.

Lemma existsb_eqb_In x l : existsb (Z.eqb x) l = true -> In x l.
Proof.
  intros H. apply existsb_exists in H as (y & Hy & Heq).
  apply Z.eqb_eq in Heq. now subst.
Qed.

Lemma quantize_channel_level c :
  channel8 c -> In (quantize_channel 24 c) bucket_levels.
Proof.
  intros Hc. apply existsb_eqb_In. revert c Hc.
  apply (all_channels_forallb
           (fun c => existsb (Z.eqb (quantize_channel 24 c)) bucket_levels)).
  vm_compute. reflexivity.
Qed.

Lemma palette_channel8 x : In x palette_channels -> channel8 x.
Proof.
  assert (H : Forall channel8 palette_channels)
    by (repeat constructor; unfold channel8; lia).
  rewrite Forall_forall in H. apply H.
Qed.

Lemma in_palette_rgb8 c : in_palette c -> rgb8 c.
Proof.
  destruct c as [[r g] b]. intros (Hr & Hg & Hb).
  repeat split; now apply palette_channel8.
Qed.

Lemma quantize_in_palette p : rgb8 p -> in_palette (quantize p).
Proof.
  destruct p as [[r g] b]. intros (Hr & Hg & Hb).
  unfold quantize, quantize_step, map3, in_palette, palette_channels.
  repeat split; apply in_or_app; left; now apply quantize_channel_level.
Qed.

Lemma darken_channel_floor c :
  channel8 c -> darken_channel c = three_quarters_floor c.
Proof.
  intros Hc. apply Z.eqb_eq. revert c Hc.
  apply (all_channels_forallb
           (fun c => darken_channel c =? three_quarters_floor c)).
  vm_compute. reflexivity.
Qed.

Lemma three_quarters_floor_channel8 c :
  channel8 c -> channel8 (three_quarters_floor c).
Proof.
  unfold channel8, three_quarters_floor. intros Hc.
  assert (0 <= 3 * c / 4 <= 255); [|lia].
  split; [apply Z.div_pos; lia|].
  apply Z.div_le_upper_bound; lia.
Qed.

Lemma darken_rgb8 c : rgb8 c -> rgb8 (darken c).
Proof.
  destruct c as [[r g] b]. intros (Hr & Hg & Hb).
  unfold darken, map3, rgb8. rewrite !darken_channel_floor by assumption.
  repeat split; now apply three_quarters_floor_channel8.
Qed.

(** No channel of a chosen colour is the darkened channel of another. *)
Lemma palette_not_darkened x y :
  In x palette_channels -> In y palette_channels -> x <> darken_channel y.
Proof.
  assert (H : forallb (fun x =>
                forallb (fun y => negb (x =? darken_channel y))
                        palette_channels) palette_channels = true)
    by (vm_compute; reflexivity).
  intros Hx Hy. rewrite forallb_forall in H. specialize (H x Hx).
  rewrite forallb_forall in H. specialize (H y Hy).
  apply negb_true_iff, Z.eqb_neq in H. exact H.
Qed.

(** ** Formatting can be read back *)

Lemma format_02x_digits c :
  channel8 c ->
  exists a b, format_02x c = String a (String b EmptyString)
              /\ hex_pair a b = c.
Proof.
  intros Hc.
  assert (H : two_digits_check c = true).
  { revert c Hc. apply all_channels_forallb. vm_compute. reflexivity. }
  unfold two_digits_check in H.
  destruct (format_02x c) as [|a [|b [|? ?]]]; try discriminate.
  exists a, b. split; [reflexivity | now apply Z.eqb_eq].
Qed.

Lemma channels_of_hex_format c :
  rgb8 c -> channels_of_hex (format_color c) = Some c.
Proof.
  destruct c as [[r g] b]. intros (Hr & Hg & Hb).
  destruct (format_02x_digits r Hr) as (r1 & r2 & Er & Vr).
  destruct (format_02x_digits g Hg) as (g1 & g2 & Eg & Vg).
  destruct (format_02x_digits b Hb) as (b1 & b2 & Eb & Vb).
  unfold format_color. rewrite Er, Eg, Eb. cbn [String.append channels_of_hex].
  now rewrite Vr, Vg, Vb.
Qed.

Lemma format_color_inj c1 c2 :
  rgb8 c1 -> rgb8 c2 -> format_color c1 = format_color c2 -> c1 = c2.
Proof.
  intros H1 H2 Heq. apply channels_of_hex_format in H1, H2.
  rewrite Heq in H1. congruence.
Qed.

(** ** The histogram *)

Lemma count_elem_keys elem mapping k n :
  In (k, n) (count_elem elem mapping) ->
  k = elem \/ exists n', In (k, n') mapping.
Proof.
  induction mapping as [|[k' n'] rest IH]; cbn [count_elem].
  - intros [H | []]. left. congruence.
  - destruct (color_eqb k' elem).
    + intros [H | H]; right.
      * exists n'. left. congruence.
      * exists n. now right.
    + intros [H | H].
      * right. exists n. now left.
      * destruct (IH H) as [-> | (m & Hm)]; [now left|].
        right. exists m. now right.
Qed.

Lemma fold_count_keys iterable : forall mapping k n,
  In (k, n) (fold_left (fun m e => count_elem e m) iterable mapping) ->
  In k iterable \/ exists n', In (k, n') mapping.
Proof.
  induction iterable as [|e rest IH]; cbn [fold_left]; intros mapping k n H.
  - right. now exists n.
  - destruct (IH _ _ _ H) as [Hin | (m & Hm)].
    + left. now right.
    + destruct (count_elem_keys _ _ _ _ Hm) as [-> | Hold].
      * left. now left.
      * now right.
Qed.

Lemma Counter_keys iterable k n : In (k, n) (Counter iterable) -> In k iterable.
Proof.
  intros H. destruct (fold_count_keys _ _ _ _ H) as [Hin | (m & [])].
  exact Hin.
Qed.

Lemma count_elem_not_nil elem mapping : count_elem elem mapping <> [].
Proof.
  destruct mapping as [|[k n] rest]; cbn [count_elem]; [discriminate|].
  destruct (color_eqb k elem); discriminate.
Qed.

Lemma fold_count_not_nil iterable : forall mapping,
  mapping <> [] ->
  fold_left (fun m e => count_elem e m) iterable mapping <> [].
Proof.
  induction iterable as [|e rest IH]; cbn [fold_left]; intros mapping H.
  - exact H.
  - apply IH, count_elem_not_nil.
Qed.

Lemma Counter_nil iterable : Counter iterable = [] -> iterable = [].
Proof.
  destruct iterable as [|e rest]; [reflexivity|].
  unfold Counter. cbn [fold_left]. intros H.
  now apply fold_count_not_nil in H; [|apply count_elem_not_nil].
Qed.

Lemma insert_by_count_In x l y :
  In y (insert_by_count x l) <-> y = x \/ In y l.
Proof.
  induction l as [|z l IH]; cbn [insert_by_count].
  - cbn. intuition congruence.
  - destruct (snd z <=? snd x); cbn [In] in *; [intuition congruence|].
    rewrite IH. intuition congruence.
Qed.

Lemma most_common_In counts y : In y (most_common counts) <-> In y counts.
Proof.
  induction counts as [|x l IH]; cbn [most_common fold_right]; [tauto|].
  fold (most_common l). rewrite insert_by_count_In, IH. cbn. intuition congruence.
Qed.

Lemma most_common_nil counts : most_common counts = [] -> counts = [].
Proof.
  destruct counts as [|x l]; [reflexivity|]. intros H.
  assert (Hin : In x (most_common (x :: l))) by (apply most_common_In; now left).
  rewrite H in Hin. destruct Hin.
Qed.

Lemma ranked_histogram_nil data : ranked_histogram data = [] <-> data = [].
Proof.
  split; [|intros ->; reflexivity].
  unfold ranked_histogram. intros H.
  apply most_common_nil, Counter_nil in H. now destruct data.
Qed.

Lemma insert_by_count_sorted x l :
  StronglySorted count_ge l -> StronglySorted count_ge (insert_by_count x l).
Proof.
  induction 1 as [|y l Hs IH Hy]; cbn [insert_by_count].
  - repeat constructor.
  - destruct (snd y <=? snd x) eqn:Hle.
    + apply Z.leb_le in Hle. constructor; [now constructor|].
      constructor; [exact Hle|].
      rewrite Forall_forall in *. intros z Hz. specialize (Hy z Hz).
      unfold count_ge in *. lia.
    + apply Z.leb_gt in Hle. constructor; [exact IH|].
      rewrite Forall_forall in *. intros z Hz.
      apply insert_by_count_In in Hz as [-> | Hz]; [|now apply Hy].
      unfold count_ge. lia.
Qed.

Lemma most_common_sorted counts : StronglySorted count_ge (most_common counts).
Proof.
  induction counts as [|x l IH]; cbn [most_common fold_right].
  - constructor.
  - apply insert_by_count_sorted, IH.
Qed.

(** The first bucket of the ranking has the largest count. *)
Lemma primary_most_frequent data primary n others k m :
  ranked_histogram data = (primary, n) :: others ->
  In (k, m) (ranked_histogram data) -> m <= n.
Proof.
  intros Heq Hin. pose proof (most_common_sorted (Counter (map quantize data))) as Hs.
  fold (ranked_histogram data) in Hs. rewrite Heq in Hs, Hin.
  apply StronglySorted_inv in Hs as [_ Hall].
  destruct Hin as [H | H]; [inversion H; lia|].
  rewrite Forall_forall in Hall. apply (Hall _ H).
Qed.

Lemma ranked_keys_palette data k n :
  Forall rgb8 data -> In (k, n) (ranked_histogram data) -> in_palette k.
Proof.
  intros Hdata Hin. unfold ranked_histogram in Hin.
  apply most_common_In, Counter_keys, in_map_iff in Hin as (p & <- & Hp).
  rewrite Forall_forall in Hdata. apply quantize_in_palette, Hdata, Hp.
Qed.

(** ** Brightness, luminance and distance of 8-bit colours *)

Module ColorFacts.

Import Binary64 Rounding.

#[local] Open Scope float_scope.

Lemma channel_small c : channel8 c -> fsmall 8 (Py.float_of_int c).
Proof.
  intros Hc. apply smallb_small. revert c Hc.
  apply (all_channels_forallb
           (fun c => smallb 8 (Prim2SF (Py.float_of_int c)))).
  vm_compute. reflexivity.
Qed.

Lemma weight_small (k : float) :
  smallb 0 (Prim2SF k) = true -> forall c, channel8 c ->
  fsmall 11 (k * Py.float_of_int c).
Proof.
  intros Hk c Hc. apply (fsmall_weaken (0 + 8 + 1)%Z); [|lia].
  apply mul_small; [now apply smallb_small | now apply channel_small | lia].
Qed.

Lemma brightness_small c : rgb8 c -> fsmall 13 (brightness c).
Proof.
  destruct c as [[r g] b]. intros (Hr & Hg & Hb). unfold brightness.
  apply (add_small 11); [|now apply weight_small|lia].
  apply (fsmall_weaken (9 + 2)%Z); [|lia].
  apply (add_small 9); [| |lia].
  - apply (mul_small 0 8);
      [now apply smallb_small | now apply channel_small | lia].
  - apply (mul_small 0 8);
      [now apply smallb_small | now apply channel_small | lia].
Qed.

(** When the primary colour is not at least as bright as the secondary
    one, the secondary one is strictly brighter. *)
Lemma brightness_total p s :
  rgb8 p -> rgb8 s ->
  Py.ge (brightness p) (brightness s) = false ->
  Py.gt (brightness s) (brightness p) = true
  /\ Py.ge (brightness s) (brightness p) = true.
Proof.
  intros Hp Hs. unfold Py.ge, Py.gt.
  apply (leb_false_gt 13 13); now apply brightness_small.
Qed.

Section Luminance.

Variable libm_pow : float -> float -> float.
Hypothesis libm_pow_unit : pow_within_unit libm_pow.

Lemma linearize_unit c :
  channel8 c ->
  Py.le 0 (linearize libm_pow c) = true
  /\ Py.le (linearize libm_pow c) 1 = true.
Proof.
  intros Hc.
  assert (H : linearize_check c = true).
  { revert c Hc. apply all_channels_forallb. vm_compute. reflexivity. }
  unfold linearize_check in H. unfold linearize.
  destruct (Py.le (Py.float_of_int c / 255.0) 0.03928).
  - now apply andb_prop in H.
  - apply andb_prop in H as [Hpos Hle]. unfold Py.float_pow.
    change (2.4 =? 0) with false. cbv iota.
    destruct (_ =? 0); [split; reflexivity|].
    destruct (_ =? 1); [split; reflexivity|].
    apply libm_pow_unit; [exact Hpos | exact Hle | reflexivity].
Qed.

Lemma linearize_small c : channel8 c -> fsmall 1 (linearize libm_pow c).
Proof.
  intros Hc. destruct (linearize_unit c Hc). now apply unit_small.
Qed.

Lemma luminance_small r g b :
  rgb8 (r, g, b) -> fsmall 6 (relative_luminance libm_pow r g b).
Proof.
  intros (Hr & Hg & Hb). unfold relative_luminance.
  assert (Hw : forall k c, smallb 0 (Prim2SF k) = true -> channel8 c ->
                           fsmall 2 (k * linearize libm_pow c)).
  { intros k c Hk Hc. apply (fsmall_weaken (0 + 1 + 1)%Z); [|lia].
    apply mul_small; [now apply smallb_small | now apply linearize_small | lia]. }
  apply (fsmall_weaken (4 + 2)%Z); [|lia].
  apply (add_small 4); [|apply (fsmall_weaken 2); [now apply Hw | lia]|lia].
  apply (fsmall_weaken (2 + 2)%Z); [|lia].
  apply (add_small 2); [now apply Hw | now apply Hw | lia].
Qed.

Lemma contrast_ratio_self c : rgb8 c -> contrast_ratio libm_pow c c = 1.
Proof.
  destruct c as [[r g] b]. intros Hc. unfold contrast_ratio, Py.max, Py.min.
  set (l := relative_luminance libm_pow r g b).
  assert (Hl : fsmall 6 l) by now apply luminance_small.
  destruct (Py.gt l l), (Py.lt l l); apply div_self;
    apply (add_positive 6); try exact Hl; try lia;
    try (apply smallb_small; vm_compute; reflexivity);
    vm_compute; exact I.
Qed.

End Luminance.

Lemma color_distance_self libm_pow r g b :
  channel8 r -> color_distance libm_pow (r, g, b) (r, g, b) = 0.
Proof.
  intros Hr. unfold color_distance, redmean_sum.
  rewrite !Z.sub_diag. fold (self_sum r).
  assert (H : (self_sum r =? 0) = true).
  { revert r Hr. apply all_channels_forallb. vm_compute. reflexivity. }
  unfold Py.float_pow. change (0.5 =? 0) with false. cbv iota.
  now rewrite H.
Qed.

End ColorFacts.

(** ** Images *)

Lemma int_of_byte_channel8 b : channel8 (int_of_byte b).
Proof.
  unfold channel8, int_of_byte. pose proof (Byte.to_N_bounded b). lia.
Qed.

Lemma getdata_rgb8 img : Forall rgb8 (getdata img).
Proof.
  apply Forall_forall. intros p Hp. unfold getdata in Hp.
  apply in_flat_map in Hp as (y & _ & Hp).
  apply in_map_iff in Hp as (x & <- & _).
  destruct (img_pixel img x y) as [[r g] b]. cbn [map3 rgb8].
  repeat split; apply int_of_byte_channel8.
Qed.

Lemma getdata_length img :
  List.length (getdata img) = (img_height img * img_width img)%nat.
Proof.
  unfold getdata.
  assert (H : forall rows,
    List.length
      (flat_map (fun y => map (fun x => map3 int_of_byte (img_pixel img x y))
                              (seq 0 (img_width img))) rows)
    = (List.length rows * img_width img)%nat).
  { induction rows as [|y rows IH]; [reflexivity|].
    cbn [flat_map List.length].
    rewrite List.length_app, List.length_map, List.length_seq, IH.
    reflexivity. }
  rewrite H, List.length_seq. reflexivity.
Qed.

(** ** The pair selector and the role assigner *)

Section Selection.

Variable libm_pow : float -> float -> float.

#[local] Abbreviation passes := (passes libm_pow).

Lemma scan_pass_spec primary contrast distance candidates :
  match scan_pass libm_pow primary contrast distance candidates with
  | Some c => first_accepted (passes primary contrast distance) candidates c
  | None => none_accepted (passes primary contrast distance) candidates
  end.
Proof.
  induction candidates as [|[color n] rest IH]; cbn [scan_pass].
  - constructor.
  - destruct (Py.ge (contrast_ratio libm_pow primary color) contrast
              && Py.ge (color_distance libm_pow primary color) distance)
      eqn:Htest.
    + exists [], n, rest. apply andb_prop in Htest.
      split; [reflexivity | split; [exact Htest | constructor]].
    + assert (Hno : ~ passes primary contrast distance color).
      { intros [H1 H2]. rewrite H1, H2 in Htest. discriminate. }
      destruct (scan_pass libm_pow primary contrast distance rest) as [c|].
      * destruct IH as (before & m & after & -> & Hok & Hbefore).
        exists ((color, n) :: before), m, after.
        split; [reflexivity | split; [exact Hok | now constructor]].
      * now constructor.
Qed.

Lemma scan_pass_In primary contrast distance candidates c :
  scan_pass libm_pow primary contrast distance candidates = Some c ->
  exists n, In (c, n) candidates.
Proof.
  intros H. pose proof (scan_pass_spec primary contrast distance candidates) as S.
  rewrite H in S. destruct S as (before & n & after & -> & _).
  exists n. apply in_elt.
Qed.

Lemma choose_pair_palette min_contrast min_distance primary others :
  in_palette primary ->
  (forall c n, In (c, n) others -> in_palette c) ->
  in_palette (snd (choose_pair libm_pow min_contrast min_distance
                               primary others)).
Proof.
  intros Hp Ho. unfold choose_pair. cbn [snd].
  assert (Hsyn : in_palette dark_companion /\ in_palette light_companion)
    by (cbn; tauto).
  destruct (scan_pass libm_pow primary min_contrast _ others) as [c|] eqn:H1.
  - apply scan_pass_In in H1 as (n & Hn). exact (Ho _ _ Hn).
  - destruct (scan_pass libm_pow primary 2 _ others) as [c|] eqn:H2.
    + apply scan_pass_In in H2 as (n & Hn). exact (Ho _ _ Hn).
    + destruct (Py.gt _ _); tauto.
Qed.

(** What [colors_of_data] returns when the histogram is not empty. *)
Lemma colors_of_data_chosen min_contrast min_distance data primary n others :
  Forall rgb8 data ->
  ranked_histogram data = (primary, n) :: others ->
  exists fg bg,
    assign_roles (choose_pair libm_pow min_contrast min_distance
                              primary others) = (fg, bg)
    /\ in_palette fg /\ in_palette bg
    /\ colors_of_data libm_pow min_contrast min_distance data
       = (format_color fg, format_color (darken bg)).
Proof.
  intros Hdata Hranked.
  assert (Hp : in_palette primary).
  { apply (ranked_keys_palette data primary n Hdata).
    rewrite Hranked. now left. }
  assert (Ho : forall c m, In (c, m) others -> in_palette c).
  { intros c m Hc. apply (ranked_keys_palette data c m Hdata).
    rewrite Hranked. now right. }
  pose proof (choose_pair_palette min_contrast min_distance primary others
                Hp Ho) as Hs.
  unfold colors_of_data. rewrite Hranked. cbn [colors_of_ranked].
  destruct (choose_pair libm_pow min_contrast min_distance primary others)
    as [p s] eqn:Hpair.
  assert (p = primary) by (unfold choose_pair in Hpair; congruence).
  subst p. cbn [snd] in Hs. unfold assign_roles.
  destruct (Py.ge (brightness primary) (brightness s)); eauto 10.
Qed.

End Selection.

(** ** The model on small inputs *)

Example quantize_samples :
  quantize (0, 0, 0) = (12, 12, 12)
  /\ quantize (255, 128, 23) = (252, 132, 12)
  /\ quantize (24, 47, 48) = (36, 36, 60).
Proof. repeat split. Qed.

Example most_common_keeps_ties_in_order :
  most_common (Counter [(1, 1, 1); (2, 2, 2); (1, 1, 1); (3, 3, 3);
                        (2, 2, 2); (3, 3, 3); (3, 3, 3); (4, 4, 4)])
  = [((3, 3, 3), 3); ((1, 1, 1), 2); ((2, 2, 2), 2); ((4, 4, 4), 1)].
Proof. reflexivity. Qed.

Example format_samples :
  format_color (230, 230, 230) = "0xffe6e6e6"%string
  /\ format_color (9, 0, 255) = "0xff0900ff"%string
  /\ channels_of_hex "0xff0900ff" = Some (9, 0, 255).
Proof. repeat split. Qed.

Example darken_samples :
  darken (230, 230, 230) = (172, 172, 172)
  /\ darken (12, 36, 255) = (9, 27, 191).
Proof. split; vm_compute; reflexivity. Qed.

Example brightness_samples :
  brightness (12, 12, 12) = 12%float
  /\ brightness (252, 252, 252) = 252%float
  /\ Py.gt (brightness (252, 252, 252)) 127 = true
  /\ Py.gt (brightness (12, 12, 12)) 127 = false.
Proof. repeat split. Qed.

Example data_sample_colors :
  choose_pair pow_sample 3.0 80 (252, 252, 252)
    [((12, 12, 36), 2); ((204, 36, 36), 1)]
  = ((252, 252, 252), (12, 12, 36))
  /\ colors_of_data pow_sample 3.0 80 data_sample
     = ("0xfffcfcfc"%string, "0xff09091b"%string).
Proof. split; vm_compute; reflexivity. Qed.

Example image_sample_colors :
  extract_colors pow_sample open_sample resample_nearest "wallpaper.png"
  = Some ("0xfffcfcfc"%string, "0xff090909"%string).
Proof. vm_compute. reflexivity. Qed.

(** ** The specification's claims *)

Section Claims.

Variable libm_pow : float -> float -> float.

(** C1: for a ranked histogram that is not empty, with [primary] its
    first bucket and [others] the buckets after it in ranking order, the
    secondary colour is the first of [others] with contrast at least 3.0
    and distance at least 80; when no bucket passes that, the first of
    [others] with contrast at least 2.0 and distance at least 40; when
    none passes that either, (30,30,30) for a primary brighter than 127
    and (230,230,230) otherwise. *)
Theorem three_tier_chain (primary : color) (others : list (color * Z)) :
  fst (choose_pair libm_pow 3.0 80 primary others) = primary
  /\ let secondary := snd (choose_pair libm_pow 3.0 80 primary others) in
     first_accepted (strict_ok libm_pow primary) others secondary
     \/ (none_accepted (strict_ok libm_pow primary) others
         /\ first_accepted (relaxed_ok libm_pow primary) others secondary)
     \/ (none_accepted (strict_ok libm_pow primary) others
         /\ none_accepted (relaxed_ok libm_pow primary) others
         /\ secondary = synthetic_companion primary).
Proof.
  split; [reflexivity|]. unfold choose_pair. cbn [snd].
  pose proof (scan_pass_spec libm_pow primary 3.0 (Py.float_of_int 80) others)
    as Hstrict.
  pose proof (scan_pass_spec libm_pow primary 2.0
                (Py.float_of_int 80 * 0.5)%float others) as Hrelaxed.
  destruct (scan_pass libm_pow primary 3.0 _ others) as [c|].
  - left. exact Hstrict.
  - right. destruct (scan_pass libm_pow primary 2.0 _ others) as [c|].
    + left. split; [exact Hstrict | exact Hrelaxed].
    + right. split; [exact Hstrict | split; [exact Hrelaxed | reflexivity]].
Qed.

(** C2: for every sequence of 8-bit pixels, the empty one included, the
    two strings returned are different. *)
Theorem two_colors_distinct (min_contrast : float) (min_distance : Z)
    (data : list color) :
  Forall rgb8 data ->
  fst (colors_of_data libm_pow min_contrast min_distance data)
  <> snd (colors_of_data libm_pow min_contrast min_distance data).
Proof.
  intros Hdata.
  destruct (ranked_histogram data) as [|[primary n] others] eqn:Hranked.
  - unfold colors_of_data. rewrite Hranked. cbn. discriminate.
  - destruct (colors_of_data_chosen libm_pow min_contrast min_distance data
                primary n others Hdata Hranked)
      as (fg & bg & _ & Hfg & Hbg & ->).
    cbn [fst snd]. intros Heq.
    apply format_color_inj in Heq;
      [|now apply in_palette_rgb8 | now apply darken_rgb8, in_palette_rgb8].
    destruct fg as [[fr fg'] fb], bg as [[br bg'] bb].
    destruct Hfg as (Hfr & _), Hbg as (Hbr & _).
    apply (palette_not_darkened fr br Hfr Hbr).
    unfold darken, map3 in Heq. congruence.
Qed.

(** C3: when the histogram is not empty, the foreground is the primary
    colour if its brightness is at least the secondary's (ties included)
    and the secondary colour otherwise, which is then strictly brighter;
    so the foreground is at least as bright as the background before
    darkening. *)
Theorem foreground_is_brighter (min_contrast : float) (min_distance : Z)
    (data : list color) (primary : color) (n : Z) (others : list (color * Z)) :
  Forall rgb8 data ->
  ranked_histogram data = (primary, n) :: others ->
  let secondary :=
    snd (choose_pair libm_pow min_contrast min_distance primary others) in
  exists fg bg,
    colors_of_data libm_pow min_contrast min_distance data
    = (format_color fg, format_color (darken bg))
    /\ ((Py.ge (brightness primary) (brightness secondary) = true
         /\ fg = primary /\ bg = secondary)
        \/ (Py.ge (brightness primary) (brightness secondary) = false
            /\ Py.gt (brightness secondary) (brightness primary) = true
            /\ fg = secondary /\ bg = primary))
    /\ Py.ge (brightness fg) (brightness bg) = true.
Proof.
  intros Hdata Hranked secondary.
  destruct (colors_of_data_chosen libm_pow min_contrast min_distance data
              primary n others Hdata Hranked)
    as (fg & bg & Hroles & Hfg & Hbg & Hout).
  exists fg, bg. split; [exact Hout|].
  unfold choose_pair in Hroles, secondary. cbn [snd] in secondary.
  fold secondary in Hroles. unfold assign_roles in Hroles.
  destruct (Py.ge (brightness primary) (brightness secondary)) eqn:Hge;
    inversion Hroles; subst fg bg.
  - split; [left; auto | exact Hge].
  - destruct (ColorFacts.brightness_total primary secondary) as [Hgt Hge'];
      try (now apply in_palette_rgb8); try exact Hge.
    split; [right; auto | exact Hge'].
Qed.

(** C4: when the histogram is not empty, the channels read back from the
    emitted background are [max(0, floor(c * 0.75))] of the channels [c]
    of the background before darkening (255 gives 191 and 0 gives 0),
    and the channels read back from the emitted foreground are those of
    the foreground, unchanged. *)
Theorem background_darkened (min_contrast : float) (min_distance : Z)
    (data : list color) (primary : color) (n : Z) (others : list (color * Z)) :
  Forall rgb8 data ->
  ranked_histogram data = (primary, n) :: others ->
  let roles :=
    assign_roles (choose_pair libm_pow min_contrast min_distance
                              primary others) in
  let emitted := colors_of_data libm_pow min_contrast min_distance data in
  channels_of_hex (fst emitted) = Some (fst roles)
  /\ channels_of_hex (snd emitted)
     = Some (map3 three_quarters_floor (snd roles))
  /\ darken_channel 255 = 191
  /\ darken_channel 0 = 0.
Proof.
  intros Hdata Hranked roles emitted.
  destruct (colors_of_data_chosen libm_pow min_contrast min_distance data
              primary n others Hdata Hranked)
    as (fg & bg & Hroles & Hfg & Hbg & Hout).
  unfold emitted, roles. rewrite Hout, Hroles. cbn [fst snd].
  apply in_palette_rgb8 in Hfg, Hbg.
  split; [now apply channels_of_hex_format|].
  split; [|split; reflexivity].
  rewrite channels_of_hex_format by now apply darken_rgb8.
  destruct bg as [[r g] b], Hbg as (Hr & Hg & Hb). unfold darken, map3.
  now rewrite !darken_channel_floor.
Qed.

(** C5: 6400 pixels (0,0,0) make a histogram of one bucket, so neither
    the strict nor the relaxed pass has a candidate and the secondary
    colour is the synthetic (230,230,230); 6400 pixels (255,255,255)
    likewise give the synthetic (30,30,30). *)
Theorem solid_images_synthesize :
  (let ranked := ranked_histogram (repeat (0, 0, 0) 6400) in
   ranked = [((12, 12, 12), 6400)]
   /\ scan_pass libm_pow (12, 12, 12) 3.0 80 (tl ranked) = None
   /\ scan_pass libm_pow (12, 12, 12) 2.0 40 (tl ranked) = None
   /\ choose_pair libm_pow 3.0 80 (12, 12, 12) (tl ranked)
      = ((12, 12, 12), (230, 230, 230)))
  /\ (let ranked := ranked_histogram (repeat (255, 255, 255) 6400) in
      ranked = [((252, 252, 252), 6400)]
      /\ scan_pass libm_pow (252, 252, 252) 3.0 80 (tl ranked) = None
      /\ scan_pass libm_pow (252, 252, 252) 2.0 40 (tl ranked) = None
      /\ choose_pair libm_pow 3.0 80 (252, 252, 252) (tl ranked)
         = ((252, 252, 252), (30, 30, 30))).
Proof.
  assert (Hblack : ranked_histogram (repeat (0, 0, 0) 6400)
                   = [((12, 12, 12), 6400)]) by (vm_compute; reflexivity).
  assert (Hwhite : ranked_histogram (repeat (255, 255, 255) 6400)
                   = [((252, 252, 252), 6400)]) by (vm_compute; reflexivity).
  cbv zeta. rewrite Hblack, Hwhite. cbn [tl scan_pass].
  repeat split; reflexivity.
Qed.

(** C6: an empty ranked histogram, which is what an empty pixel sequence
    gives, makes the function return the pair "0xff888888",
    "0xff222222" as it is: a result, not a failure. *)
Theorem empty_histogram_fallback (min_contrast : float) (min_distance : Z) :
  colors_of_ranked libm_pow min_contrast min_distance []
  = ("0xff888888"%string, "0xff222222"%string)
  /\ ranked_histogram [] = []
  /\ colors_of_data libm_pow min_contrast min_distance []
     = ("0xff888888"%string, "0xff222222"%string).
Proof. repeat split. Qed.

(** C7: with the step 24, [quantize] maps each channel [c] to
    [min(255, (c div 24) * 24 + 12)], and quantizing an 8-bit colour
    twice is quantizing it once. *)
Theorem quantize_idempotent (c : color) :
  rgb8 c ->
  quantize c = map3 (fun x => Z.min 255 (x / 24 * 24 + 12)) c
  /\ quantize (quantize c) = quantize c.
Proof.
  destruct c as [[r g] b]. intros (Hr & Hg & Hb).
  split; [reflexivity|].
  assert (H : forall x, channel8 x ->
    quantize_channel 24 (quantize_channel 24 x) = quantize_channel 24 x).
  { unfold channel8, quantize_channel. intros x Hx.
    change (24 / 2) with 12.
    assert (0 <= x / 24 < 11)
      by (split; [apply Z.div_pos | apply Z.div_lt_upper_bound]; lia).
    set (q := x / 24) in *.
    rewrite (Z.min_r 255 (q * 24 + 12)) by lia.
    replace ((q * 24 + 12) / 24) with q
      by (apply (Z.div_unique _ _ _ 12); lia).
    apply Z.min_r. lia. }
  unfold quantize, quantize_step, map3. now rewrite !H.
Qed.

(** C8: the relative luminance of (0,0,0) is exactly 0.0 and that of
    (255,255,255) exactly 1.0, whatever the C library's [pow]. *)
Theorem luminance_boundaries :
  relative_luminance libm_pow 0 0 0 = 0%float
  /\ relative_luminance libm_pow 255 255 255 = 1%float.
Proof. split; vm_compute; reflexivity. Qed.

(** C9: for every 8-bit colour [c], [contrast_ratio(c, c)] is exactly
    1.0 and [color_distance(c, c)] exactly 0.0, for a C library whose
    [pow] keeps (0, 1] within [0, 1]. *)
Theorem identity_cases (c : color) :
  pow_within_unit libm_pow -> rgb8 c ->
  contrast_ratio libm_pow c c = 1%float
  /\ color_distance libm_pow c c = 0%float.
Proof.
  intros Hpow Hc. split.
  - now apply ColorFacts.contrast_ratio_self.
  - destruct c as [[r g] b]. apply ColorFacts.color_distance_self, Hc.
Qed.

(** C10: when the image is decoded, the resized image has 6400 pixels,
    the ranked histogram is not empty, and the pair returned is not the
    hardcoded "0xff888888", "0xff222222". *)
Theorem fallback_unreachable
    (Image_open_RGB : string -> option image)
    (resample : image -> nat -> nat -> nat -> nat -> byte * byte * byte)
    (image_path : string) (img : image) :
  Image_open_RGB image_path = Some img ->
  let data := getdata (resize resample img 80 80) in
  List.length data = 6400%nat
  /\ ranked_histogram data <> []
  /\ extract_colors libm_pow Image_open_RGB resample image_path
     = Some (colors_of_data libm_pow 3.0 80 data)
  /\ colors_of_data libm_pow 3.0 80 data <> fallback_pair.
Proof.
  intros Hopen data.
  assert (Hlen : List.length data = 6400%nat)
    by (unfold data; rewrite getdata_length; reflexivity).
  assert (Hne : ranked_histogram data <> []).
  { intros H. apply ranked_histogram_nil in H. rewrite H in Hlen.
    discriminate. }
  split; [exact Hlen | split; [exact Hne | split]].
  - unfold extract_colors, extract_colors_with. now rewrite Hopen.
  - destruct (ranked_histogram data) as [|[primary n] others] eqn:Hranked;
      [contradiction|].
    destruct (colors_of_data_chosen libm_pow 3.0 80 data primary n others
                (getdata_rgb8 _) Hranked)
      as (fg & bg & _ & Hfg & _ & ->).
    intros Heq. injection Heq as Hf _.
    change "0xff888888"%string with (format_color (136, 136, 136)) in Hf.
    apply format_color_inj in Hf;
      [|now apply in_palette_rgb8 | cbn; unfold channel8; lia].
    subst fg. destruct Hfg as (H136 & _).
    cbn in H136. intuition discriminate.
Qed.

End Claims.

(** ** The claims on sample inputs *)

Lemma pow_sample_unit : pow_within_unit pow_sample.
Proof.
  intros x y Hpos Hle _. unfold pow_sample. rewrite Hpos, Hle. cbn [andb].
  destruct (Py.le 0 _ && Py.le _ 1) eqn:H; cbn [negb].
  - now apply andb_prop in H.
  - split; reflexivity.
Qed.

Lemma data_sample_rgb8 : Forall rgb8 data_sample.
Proof. repeat constructor; unfold channel8; lia. Qed.

Lemma data_sample_ranked :
  ranked_histogram data_sample
  = ((252, 252, 252), 2) :: [((12, 12, 36), 2); ((204, 36, 36), 1)].
Proof. vm_compute. reflexivity. Qed.

Lemma two_colors_distinct_witness :
  Forall rgb8 data_sample
  /\ fst (colors_of_data pow_sample 3.0 80 data_sample)
     <> snd (colors_of_data pow_sample 3.0 80 data_sample).
Proof.
  split; [exact data_sample_rgb8|].
  apply (two_colors_distinct pow_sample 3.0 80 data_sample).
  exact data_sample_rgb8.
Defined.

Lemma foreground_is_brighter_witness :
  Forall rgb8 data_sample
  /\ ranked_histogram data_sample
     = ((252, 252, 252), 2) :: [((12, 12, 36), 2); ((204, 36, 36), 1)]
  /\ exists fg bg,
       colors_of_data pow_sample 3.0 80 data_sample
       = (format_color fg, format_color (darken bg))
       /\ Py.ge (brightness fg) (brightness bg) = true.
Proof.
  split; [exact data_sample_rgb8|]. split; [exact data_sample_ranked|].
  destruct (foreground_is_brighter pow_sample 3.0 80 data_sample
              (252, 252, 252) 2 [((12, 12, 36), 2); ((204, 36, 36), 1)]
              data_sample_rgb8 data_sample_ranked)
    as (fg & bg & Hout & _ & Hge).
  exists fg, bg. split; [exact Hout | exact Hge].
Defined.

Lemma background_darkened_witness :
  Forall rgb8 data_sample
  /\ ranked_histogram data_sample
     = ((252, 252, 252), 2) :: [((12, 12, 36), 2); ((204, 36, 36), 1)]
  /\ channels_of_hex (snd (colors_of_data pow_sample 3.0 80 data_sample))
     = Some (map3 three_quarters_floor
               (snd (assign_roles
                       (choose_pair pow_sample 3.0 80 (252, 252, 252)
                          [((12, 12, 36), 2); ((204, 36, 36), 1)])))).
Proof.
  split; [exact data_sample_rgb8|]. split; [exact data_sample_ranked|].
  exact (proj1 (proj2 (background_darkened pow_sample 3.0 80 data_sample
                         (252, 252, 252) 2
                         [((12, 12, 36), 2); ((204, 36, 36), 1)]
                         data_sample_rgb8 data_sample_ranked))).
Defined.

Lemma quantize_idempotent_witness :
  rgb8 (200, 100, 50)
  /\ quantize (quantize (200, 100, 50)) = quantize (200, 100, 50).
Proof.
  assert (H : rgb8 (200, 100, 50)) by (cbn; unfold channel8; lia).
  split; [exact H|].
  exact (proj2 (quantize_idempotent (200, 100, 50) H)).
Defined.

Lemma identity_cases_witness :
  pow_within_unit pow_sample
  /\ rgb8 (200, 100, 50)
  /\ contrast_ratio pow_sample (200, 100, 50) (200, 100, 50) = 1%float
  /\ color_distance pow_sample (200, 100, 50) (200, 100, 50) = 0%float.
Proof.
  assert (H : rgb8 (200, 100, 50)) by (cbn; unfold channel8; lia).
  split; [exact pow_sample_unit|]. split; [exact H|].
  exact (identity_cases pow_sample (200, 100, 50) pow_sample_unit H).
Defined.

Lemma fallback_unreachable_witness :
  open_sample "wallpaper.png"%string = Some image_sample
  /\ extract_colors pow_sample open_sample resample_nearest "wallpaper.png"
     = Some (colors_of_data pow_sample 3.0 80
               (getdata (resize resample_nearest image_sample 80 80)))
  /\ colors_of_data pow_sample 3.0 80
       (getdata (resize resample_nearest image_sample 80 80))
     <> fallback_pair.
Proof.
  split; [reflexivity|].
  exact (proj2 (proj2 (fallback_unreachable pow_sample open_sample
                         resample_nearest
                         "wallpaper.png" image_sample eq_refl))).
Defined.

(** * Further properties of the code *)

(** ** Quantizing and darkening a channel *)

Lemma quantize_channel_24 c :
  channel8 c -> quantize_channel 24 c = c / 24 * 24 + 12.
Proof.
  unfold channel8, quantize_channel. intros Hc. change (24 / 2) with 12.
  assert (0 <= c / 24 < 11)
    by (split; [apply Z.div_pos | apply Z.div_lt_upper_bound]; lia).
  apply Z.min_r. lia.
Qed.

(** X1: the bucket centre of an 8-bit channel is one of the 11 levels
    12, 36, ..., 252, and the channel lies within its bucket: at most 12
    below the centre and at most 11 above. *)
Theorem quantize_channel_nearby (c : Z) :
  channel8 c ->
  In (quantize_channel 24 c) bucket_levels
  /\ quantize_channel 24 c - 12 <= c <= quantize_channel 24 c + 11
  /\ quantize_channel 24 c mod 24 = 12.
Proof.
  intros Hc. split; [now apply quantize_channel_level|].
  rewrite quantize_channel_24 by assumption.
  pose proof (Z.div_mod c 24 ltac:(lia)) as Hdm.
  pose proof (Z.mod_pos_bound c 24 ltac:(lia)) as Hm.
  split; [lia|].
  rewrite Z.add_comm, Z.mod_add by lia. reflexivity.
Qed.

Lemma quantize_channel_nearby_witness :
  channel8 200
  /\ quantize_channel 24 200 - 12 <= 200 <= quantize_channel 24 200 + 11.
Proof.
  assert (H : channel8 200) by (unfold channel8; lia).
  split; [exact H|].
  exact (proj1 (proj2 (quantize_channel_nearby 200 H))).
Defined.

(** X2: two 8-bit channels get the same bucket centre exactly when they
    fall in the same interval of width 24, and quantizing keeps the
    order of channels. *)
Theorem quantize_channel_same_bucket (a b : Z) :
  channel8 a -> channel8 b ->
  (quantize_channel 24 a = quantize_channel 24 b <-> a / 24 = b / 24)
  /\ (a <= b -> quantize_channel 24 a <= quantize_channel 24 b).
Proof.
  intros Ha Hb. rewrite !quantize_channel_24 by assumption.
  split; [lia|]. intros Hle.
  assert (a / 24 <= b / 24) by (apply Z.div_le_mono; lia). lia.
Qed.

Lemma quantize_channel_same_bucket_witness :
  channel8 100 /\ channel8 119
  /\ quantize_channel 24 100 = quantize_channel 24 119.
Proof.
  assert (Ha : channel8 100) by (unfold channel8; lia).
  assert (Hb : channel8 119) by (unfold channel8; lia).
  split; [exact Ha|]. split; [exact Hb|].
  apply (proj1 (quantize_channel_same_bucket 100 119 Ha Hb)). reflexivity.
Defined.

(** X3: darkening an 8-bit channel gives a value between 0 and 191 that
    is three quarters of the channel rounded down; it never exceeds the
    channel and equals it only for 0. *)
Theorem darken_channel_range (c : Z) :
  channel8 c ->
  0 <= darken_channel c <= 191
  /\ 4 * darken_channel c <= 3 * c < 4 * darken_channel c + 4
  /\ darken_channel c <= c
  /\ (darken_channel c = c <-> c = 0).
Proof.
  intros Hc. rewrite darken_channel_floor by assumption.
  unfold channel8, three_quarters_floor in *.
  pose proof (Z.div_mod (3 * c) 4 ltac:(lia)) as Hdm.
  pose proof (Z.mod_pos_bound (3 * c) 4 ltac:(lia)) as Hm.
  assert (0 <= 3 * c / 4) by (apply Z.div_pos; lia).
  rewrite Z.max_r by lia. lia.
Qed.

Lemma darken_channel_range_witness :
  channel8 230 /\ 0 <= darken_channel 230 <= 191.
Proof.
  assert (H : channel8 230) by (unfold channel8; lia).
  split; [exact H|]. exact (proj1 (darken_channel_range 230 H)).
Defined.

(** ** Counting and ranking *)

Lemma color_eqb_eq a b : color_eqb a b = true <-> a = b.
Proof.
  destruct a as [[r1 g1] b1], b as [[r2 g2] b2]. unfold color_eqb.
  rewrite !andb_true_iff, !Z.eqb_eq. split.
  - intros [[-> ->] ->]. reflexivity.
  - intros H. injection H as -> -> ->. auto.
Qed.

Lemma color_eqb_refl a : color_eqb a a = true.
Proof. now apply color_eqb_eq. Qed.

Lemma color_eqb_neq a b : color_eqb a b = false <-> a <> b.
Proof.
  rewrite <- color_eqb_eq. destruct (color_eqb a b); intuition congruence.
Qed.

Lemma count_for_count_elem k elem mapping :
  count_for k (count_elem elem mapping)
  = count_for k mapping + (if color_eqb elem k then 1 else 0).
Proof.
  induction mapping as [|[k' n] rest IH]; cbn [count_elem count_for].
  - destruct (color_eqb elem k); lia.
  - destruct (color_eqb k' elem) eqn:He; cbn [count_for].
    + apply color_eqb_eq in He. subst k'.
      destruct (color_eqb elem k); lia.
    + destruct (color_eqb k' k) eqn:Hk; [|exact IH].
      apply color_eqb_eq in Hk. subst k'. apply color_eqb_neq in He.
      assert (Hs : color_eqb elem k = false)
        by (apply color_eqb_neq; congruence).
      rewrite Hs. lia.
Qed.

Lemma Counter_snoc iterable elem :
  Counter (iterable ++ [elem]) = count_elem elem (Counter iterable).
Proof. unfold Counter. now rewrite fold_left_app. Qed.

Lemma count_for_Counter iterable k :
  count_for k (Counter iterable)
  = Z.of_nat (count_occ color_eq_dec iterable k).
Proof.
  induction iterable as [|e l IH] using rev_ind; [reflexivity|].
  rewrite Counter_snoc, count_for_count_elem, IH, count_occ_app.
  cbn [count_occ]. destruct (color_eq_dec e k) as [-> | Hne].
  - rewrite color_eqb_refl. lia.
  - apply color_eqb_neq in Hne. rewrite Hne. lia.
Qed.

Lemma count_elem_fst elem mapping :
  map fst (count_elem elem mapping)
  = if existsb (fun k => color_eqb k elem) (map fst mapping)
    then map fst mapping else map fst mapping ++ [elem].
Proof.
  induction mapping as [|[k n] rest IH]; cbn [count_elem map fst existsb app].
  - reflexivity.
  - destruct (color_eqb k elem); cbn [orb map fst]; [reflexivity|].
    rewrite IH. now destruct (existsb _ _).
Qed.

Lemma count_elem_NoDup elem mapping :
  NoDup (map fst mapping) -> NoDup (map fst (count_elem elem mapping)).
Proof.
  intros H. rewrite count_elem_fst.
  destruct (existsb _ _) eqn:He; [exact H|].
  apply NoDup_rev in H. rewrite <- (rev_involutive (_ ++ _)), rev_app_distr.
  apply NoDup_rev. cbn [rev app]. constructor; [|exact H].
  rewrite <- in_rev. intros Hin.
  assert (existsb (fun k => color_eqb k elem) (map fst mapping) = true);
    [|congruence].
  apply existsb_exists. exists elem. split; [exact Hin | apply color_eqb_refl].
Qed.

Lemma Counter_NoDup iterable : NoDup (map fst (Counter iterable)).
Proof.
  induction iterable as [|e l IH] using rev_ind; [constructor|].
  rewrite Counter_snoc. now apply count_elem_NoDup.
Qed.

Lemma count_for_In k n mapping :
  NoDup (map fst mapping) -> In (k, n) mapping -> count_for k mapping = n.
Proof.
  induction mapping as [|[k' n'] rest IH]; cbn [map fst count_for];
    [intros _ []|].
  intros Hnd [Heq | Hin].
  - injection Heq as -> ->. now rewrite color_eqb_refl.
  - apply NoDup_cons_iff in Hnd as [Hnotin Hnd].
    destruct (color_eqb k' k) eqn:Hk; [|now apply IH].
    apply color_eqb_eq in Hk. subst k'. exfalso. apply Hnotin.
    apply in_map_iff. now exists (k, n).
Qed.

Lemma count_for_positive k mapping :
  0 < count_for k mapping -> In (k, count_for k mapping) mapping.
Proof.
  induction mapping as [|[k' n'] rest IH]; cbn [count_for]; [lia|].
  destruct (color_eqb k' k) eqn:Hk.
  - apply color_eqb_eq in Hk. subst k'. now left.
  - intros H. right. now apply IH.
Qed.

(** X4: [Counter] holds each distinct element once, with the number of
    its occurrences: an item (k, n) is in the counter exactly when [k]
    occurs n > 0 times. *)
Theorem Counter_counts (iterable : list color) (k : color) (n : Z) :
  NoDup (map fst (Counter iterable))
  /\ (In (k, n) (Counter iterable)
      <-> n = Z.of_nat (count_occ color_eq_dec iterable k) /\ 0 < n).
Proof.
  split; [apply Counter_NoDup|]. split.
  - intros Hin. pose proof (Counter_keys _ _ _ Hin) as Hk.
    apply (count_for_In _ _ _ (Counter_NoDup iterable)) in Hin.
    rewrite count_for_Counter in Hin. subst n. split; [reflexivity|].
    apply (count_occ_In color_eq_dec) in Hk. lia.
  - intros [-> Hpos]. rewrite <- count_for_Counter in *.
    now apply count_for_positive.
Qed.

Lemma insert_by_count_perm x l : Permutation (insert_by_count x l) (x :: l).
Proof.
  induction l as [|y l IH]; cbn [insert_by_count]; [reflexivity|].
  destruct (snd y <=? snd x); [reflexivity|].
  rewrite IH. apply perm_swap.
Qed.

Lemma most_common_perm counts : Permutation (most_common counts) counts.
Proof.
  induction counts as [|x l IH]; cbn [most_common fold_right]; [constructor|].
  fold (most_common l). rewrite insert_by_count_perm. now constructor.
Qed.

Lemma insert_by_count_filter c x l :
  filter (fun item => snd item =? c) (insert_by_count x l)
  = filter (fun item => snd item =? c) (x :: l).
Proof.
  induction l as [|y l IH]; cbn [insert_by_count]; [reflexivity|].
  destruct (snd y <=? snd x) eqn:Hle; [reflexivity|].
  apply Z.leb_gt in Hle. cbn [filter] in *.
  destruct (snd y =? c) eqn:Hy, (snd x =? c) eqn:Hx;
    rewrite IH; try reflexivity.
  apply Z.eqb_eq in Hy, Hx. lia.
Qed.

(** X5: [most_common] reorders the items without adding or dropping any,
    puts larger counts first, and keeps items of equal count in the
    order they had (the sort is stable). *)
Theorem most_common_stable_sort (counts : list (color * Z)) (c : Z) :
  Permutation (most_common counts) counts
  /\ StronglySorted count_ge (most_common counts)
  /\ filter (fun item => snd item =? c) (most_common counts)
     = filter (fun item => snd item =? c) counts.
Proof.
  split; [apply most_common_perm|]. split; [apply most_common_sorted|].
  induction counts as [|x l IH]; cbn [most_common fold_right]; [reflexivity|].
  fold (most_common l). rewrite insert_by_count_filter. cbn [filter].
  now rewrite IH.
Qed.

Lemma total_count_count_elem elem mapping :
  total_count (count_elem elem mapping) = total_count mapping + 1.
Proof.
  unfold total_count.
  induction mapping as [|[k n] rest IH]; cbn [count_elem fold_right snd];
    [lia|].
  destruct (color_eqb k elem); cbn [fold_right snd]; lia.
Qed.

Lemma total_count_perm l l' :
  Permutation l l' -> total_count l = total_count l'.
Proof.
  unfold total_count. induction 1; cbn [fold_right]; lia.
Qed.

Lemma length_count_elem elem mapping :
  (List.length (count_elem elem mapping) <= S (List.length mapping))%nat.
Proof.
  induction mapping as [|[k n] rest IH]; cbn [count_elem List.length]; [lia|].
  destruct (color_eqb k elem); cbn [List.length]; lia.
Qed.

Lemma length_Counter iterable :
  (List.length (Counter iterable) <= List.length iterable)%nat.
Proof.
  induction iterable as [|e l IH] using rev_ind; [cbn; lia|].
  rewrite Counter_snoc, List.length_app. cbn [List.length].
  pose proof (length_count_elem e (Counter l)). lia.
Qed.

Lemma total_count_Counter iterable :
  total_count (Counter iterable) = Z.of_nat (List.length iterable).
Proof.
  induction iterable as [|e l IH] using rev_ind; [reflexivity|].
  rewrite Counter_snoc, total_count_count_elem, IH, List.length_app.
  cbn [List.length]. lia.
Qed.

Lemma ranked_counts_positive data k n :
  In (k, n) (ranked_histogram data) -> 0 < n.
Proof.
  unfold ranked_histogram. intros Hin.
  apply (proj1 (most_common_In _ _)) in Hin.
  pose proof (Counter_keys _ _ _ Hin) as Hk.
  apply (count_for_In _ _ _ (Counter_NoDup _)) in Hin.
  rewrite count_for_Counter in Hin.
  apply (count_occ_In color_eq_dec) in Hk. lia.
Qed.

Lemma ranked_keys_NoDup data : NoDup (map fst (ranked_histogram data)).
Proof.
  unfold ranked_histogram.
  apply (Permutation_NoDup (l := map fst (Counter (map quantize data)))).
  - apply Permutation_map. symmetry. apply most_common_perm.
  - apply Counter_NoDup.
Qed.

(** X6: the counts of the ranked histogram add up to the number of
    pixels, every bucket in it has a positive count, and no bucket
    appears twice. *)
Theorem ranked_histogram_accounts (data : list color) :
  total_count (ranked_histogram data) = Z.of_nat (List.length data)
  /\ Forall (fun item => 0 < snd item) (ranked_histogram data)
  /\ NoDup (map fst (ranked_histogram data)).
Proof.
  split; [|split].
  - unfold ranked_histogram.
    rewrite (total_count_perm _ _ (most_common_perm _)), total_count_Counter.
    now rewrite List.length_map.
  - apply Forall_forall. intros [k n] Hin.
    exact (ranked_counts_positive data k n Hin).
  - apply ranked_keys_NoDup.
Qed.

(** X7: the primary colour is a most frequent bucket: its count is the
    number of pixels that quantize to it, and no bucket has more. *)
Theorem primary_is_most_frequent (data : list color) (primary : color)
    (n : Z) (others : list (color * Z)) :
  ranked_histogram data = (primary, n) :: others ->
  n = Z.of_nat (count_occ color_eq_dec (map quantize data) primary)
  /\ forall c, Z.of_nat (count_occ color_eq_dec (map quantize data) c) <= n.
Proof.
  intros Hranked.
  assert (Hcount : forall k m, In (k, m) (ranked_histogram data) ->
            m = Z.of_nat (count_occ color_eq_dec (map quantize data) k)).
  { intros k m Hin. unfold ranked_histogram in Hin.
    apply (proj1 (most_common_In _ _)) in Hin.
    apply (count_for_In _ _ _ (Counter_NoDup _)) in Hin.
    now rewrite count_for_Counter in Hin. }
  split; [apply Hcount; rewrite Hranked; now left|].
  intros c.
  destruct (count_occ color_eq_dec (map quantize data) c) as [|m] eqn:Hc.
  - assert (Hn : In (primary, n) (ranked_histogram data))
      by (rewrite Hranked; now left).
    pose proof (ranked_counts_positive data primary n Hn). lia.
  - rewrite <- Hc.
    assert (Hin : In (c, Z.of_nat (count_occ color_eq_dec
                                     (map quantize data) c))
                     (ranked_histogram data)).
    { unfold ranked_histogram. apply most_common_In.
      rewrite <- count_for_Counter. apply count_for_positive.
      rewrite count_for_Counter. lia. }
    apply (primary_most_frequent data primary n others c _ Hranked Hin).
Qed.

Lemma primary_is_most_frequent_witness :
  ranked_histogram data_sample
  = ((252, 252, 252), 2) :: [((12, 12, 36), 2); ((204, 36, 36), 1)]
  /\ 2 = Z.of_nat (count_occ color_eq_dec (map quantize data_sample)
                     (252, 252, 252)).
Proof.
  split; [exact data_sample_ranked|].
  exact (proj1 (primary_is_most_frequent data_sample (252, 252, 252) 2
                  [((12, 12, 36), 2); ((204, 36, 36), 1)]
                  data_sample_ranked)).
Defined.

Lemma quantize_in_all_buckets p : rgb8 p -> In (quantize p) all_buckets.
Proof.
  destruct p as [[r g] b]. intros (Hr & Hg & Hb).
  unfold quantize, quantize_step, map3, all_buckets.
  repeat (apply in_prod); now apply quantize_channel_level.
Qed.

(** X8: the histogram of 8-bit pixels has at most 11 * 11 * 11 = 1331
    buckets, and never more buckets than pixels. *)
Theorem ranked_histogram_size (data : list color) :
  Forall rgb8 data ->
  (List.length (ranked_histogram data) <= 1331)%nat
  /\ (List.length (ranked_histogram data) <= List.length data)%nat.
Proof.
  intros Hdata. pose proof (ranked_keys_NoDup data) as Hnd.
  split.
  - rewrite <- (List.length_map fst).
    change 1331%nat with (List.length all_buckets).
    apply NoDup_incl_length; [exact Hnd|].
    intros k Hk. apply in_map_iff in Hk as ([k' n] & <- & Hin).
    unfold ranked_histogram in Hin.
    apply most_common_In, Counter_keys, in_map_iff in Hin as (p & <- & Hp).
    rewrite Forall_forall in Hdata. apply quantize_in_all_buckets, Hdata, Hp.
  - unfold ranked_histogram.
    rewrite (Permutation_length (most_common_perm _)).
    rewrite <- (List.length_map quantize data). apply length_Counter.
Qed.

Lemma ranked_histogram_size_witness :
  Forall rgb8 data_sample
  /\ (List.length (ranked_histogram data_sample) <= 1331)%nat.
Proof.
  split; [exact data_sample_rgb8|].
  exact (proj1 (ranked_histogram_size data_sample data_sample_rgb8)).
Defined.

Lemma fold_count_repeat q n : forall k,
  fold_left (fun m e => count_elem e m) (repeat q n) [(q, k)]
  = [(q, k + Z.of_nat n)].
Proof.
  induction n as [|n IH]; intros k; cbn [repeat fold_left count_elem].
  - f_equal. f_equal. lia.
  - rewrite color_eqb_refl, IH. f_equal. f_equal. lia.
Qed.

(** X9: an image of one colour, whatever the colour and the number of
    pixels, has a single bucket, so no pass has a candidate and the
    secondary colour is the synthetic one. *)
Theorem solid_image_synthesizes (libm_pow : float -> float -> float)
    (min_contrast : float) (min_distance : Z) (c : color) (n : nat) :
  ranked_histogram (repeat c (S n)) = [(quantize c, Z.of_nat (S n))]
  /\ choose_pair libm_pow min_contrast min_distance (quantize c)
       (tl (ranked_histogram (repeat c (S n))))
     = (quantize c, synthetic_companion (quantize c)).
Proof.
  assert (H : ranked_histogram (repeat c (S n))
              = [(quantize c, Z.of_nat (S n))]).
  { unfold ranked_histogram, Counter. rewrite map_repeat.
    cbn [repeat fold_left count_elem]. rewrite fold_count_repeat.
    cbn [most_common fold_right insert_by_count]. f_equal. f_equal. lia. }
  split; [exact H|]. rewrite H. reflexivity.
Qed.

(** ** Comparisons with positive constants *)

Module Ordering.

Import Binary64 Rounding.

#[local] Open Scope float_scope.

Lemma ltb_leb x y : (x <? y) = true -> (x <=? y) = true.
Proof.
  rewrite FloatAxioms.ltb_spec, FloatAxioms.leb_spec. unfold SFltb, SFleb.
  now destruct (SFcompare _ _) as [[| |]|].
Qed.

(** Below a positive number [b] there is nothing that is above a
    positive number [a] no smaller than [b]: the three lemmas that
    follow are the transitivity of the order through [b]. *)
Lemma SFcompare_through a b x :
  positive_finite a -> positive_finite b ->
  match SFcompare a b, SFcompare b x with
  | Some Eq, Some Eq => SFcompare a x = Some Eq
  | Some Lt, Some Lt | Some Lt, Some Eq | Some Eq, Some Lt =>
      SFcompare a x = Some Lt
  | _, _ => True
  end.
Proof.
  destruct a as [| | |[|] ma ea]; try contradiction.
  destruct b as [| | |[|] mb eb]; try contradiction. intros _ _.
  destruct x as [sx|[|]| |[|] mx ex]; cbn [SFcompare];
    try (destruct (ea ?= eb)%Z; [destruct (Pos.compare_cont Eq ma mb)| |];
         cbv iota; exact I || reflexivity).
  change (Pos.compare_cont Eq ma mb) with (Pos.compare ma mb).
  change (Pos.compare_cont Eq mb mx) with (Pos.compare mb mx).
  change (Pos.compare_cont Eq ma mx) with (Pos.compare ma mx).
  destruct (Z.compare_spec ea eb), (Z.compare_spec eb ex),
    (Z.compare_spec ea ex); try lia; try exact I; try reflexivity;
    destruct (Pos.compare_spec ma mb), (Pos.compare_spec mb mx),
      (Pos.compare_spec ma mx); try lia; try exact I; reflexivity.
Qed.

Lemma leb_through a b x :
  positive_finite (Prim2SF a) -> positive_finite (Prim2SF b) ->
  (a <=? b) = true -> (b <=? x) = true -> (a <=? x) = true.
Proof.
  intros Ha Hb. rewrite !FloatAxioms.leb_spec. unfold SFleb.
  pose proof (SFcompare_through _ _ (Prim2SF x) Ha Hb) as H.
  destruct (SFcompare (Prim2SF a) (Prim2SF b)) as [[| |]|];
    destruct (SFcompare (Prim2SF b) (Prim2SF x)) as [[| |]|];
    try discriminate; now rewrite H.
Qed.

Lemma ltb_leb_through a b x :
  positive_finite (Prim2SF a) -> positive_finite (Prim2SF b) ->
  (a <? b) = true -> (b <=? x) = true -> (a <? x) = true.
Proof.
  intros Ha Hb. rewrite !FloatAxioms.ltb_spec, FloatAxioms.leb_spec.
  unfold SFleb, SFltb.
  pose proof (SFcompare_through _ _ (Prim2SF x) Ha Hb) as H.
  destruct (SFcompare (Prim2SF a) (Prim2SF b)) as [[| |]|];
    destruct (SFcompare (Prim2SF b) (Prim2SF x)) as [[| |]|];
    try discriminate; now rewrite H.
Qed.

Lemma leb_ltb_through a b x :
  positive_finite (Prim2SF a) -> positive_finite (Prim2SF b) ->
  (a <=? b) = true -> (b <? x) = true -> (a <? x) = true.
Proof.
  intros Ha Hb. rewrite !FloatAxioms.ltb_spec, FloatAxioms.leb_spec.
  unfold SFleb, SFltb.
  pose proof (SFcompare_through _ _ (Prim2SF x) Ha Hb) as H.
  destruct (SFcompare (Prim2SF a) (Prim2SF b)) as [[| |]|];
    destruct (SFcompare (Prim2SF b) (Prim2SF x)) as [[| |]|];
    try discriminate; now rewrite H.
Qed.

End Ordering.

(** ** The tiers and the roles *)

Section TierFacts.

Variable libm_pow : float -> float -> float.

Lemma strict_relaxed primary c :
  strict_ok libm_pow primary c -> relaxed_ok libm_pow primary c.
Proof.
  unfold strict_ok, relaxed_ok, passes, Py.ge. intros [Hc Hd]. split.
  - apply (Ordering.leb_through 2 3); try exact I; [reflexivity | exact Hc].
  - apply (Ordering.leb_through 40 80); try exact I; [reflexivity | exact Hd].
Qed.

(** X10: a secondary colour taken from the histogram by either pass has
    contrast at least 2.0 and distance at least 40 to the primary one;
    otherwise no bucket has both and the secondary colour is the
    synthetic one. *)
Theorem secondary_meets_relaxed (primary : color)
    (others : list (color * Z)) :
  let secondary := snd (choose_pair libm_pow 3.0 80 primary others) in
  (relaxed_ok libm_pow primary secondary
   /\ exists n, In (secondary, n) others)
  \/ (none_accepted (relaxed_ok libm_pow primary) others
      /\ secondary = synthetic_companion primary).
Proof.
  unfold choose_pair. cbn [snd].
  pose proof (scan_pass_spec libm_pow primary 3.0 (Py.float_of_int 80) others)
    as Hstrict.
  pose proof (scan_pass_spec libm_pow primary 2.0
                (Py.float_of_int 80 * 0.5)%float others) as Hrelaxed.
  destruct (scan_pass libm_pow primary 3.0 _ others) as [c|].
  - left. destruct Hstrict as (before & n & after & -> & Hok & _).
    split; [now apply strict_relaxed | exists n; apply in_elt].
  - destruct (scan_pass libm_pow primary 2.0 _ others) as [c|].
    + left. destruct Hrelaxed as (before & n & after & -> & Hok & _).
      split; [exact Hok | exists n; apply in_elt].
    + right. split; [exact Hrelaxed | reflexivity].
Qed.

(** X11: with the synthetic companion the roles are fixed by the test
    that chose it: a primary colour brighter than 127 is the foreground
    and (30,30,30) the background; any other primary colour is the
    background and (230,230,230) the foreground. *)
Theorem synthetic_roles (primary : color) :
  assign_roles (primary, synthetic_companion primary)
  = if Py.gt (brightness primary) 127
    then (primary, (30, 30, 30))
    else ((230, 230, 230), primary).
Proof.
  unfold synthetic_companion, assign_roles, Py.gt, Py.ge.
  destruct (PrimFloat.ltb 127 (brightness primary)) eqn:Hgt.
  - change (brightness (30, 30, 30)) with 30%float.
    rewrite (Ordering.ltb_leb 30 (brightness primary)); [reflexivity|].
    apply (Ordering.leb_ltb_through 30 127); try exact I;
      [reflexivity | exact Hgt].
  - destruct (PrimFloat.leb (brightness (230, 230, 230)) (brightness primary))
      eqn:Hge; [|reflexivity].
    rewrite (Ordering.ltb_leb_through 127 (brightness (230, 230, 230))
               (brightness primary)) in Hgt;
      [discriminate | exact I | vm_compute; exact I | reflexivity | exact Hge].
Qed.

(** X12: the weighted sum of squared differences, so the colour
    distance, does not depend on the order of its two colours. *)
Theorem color_distance_symmetric (c1 c2 : color) :
  color_distance libm_pow c1 c2 = color_distance libm_pow c2 c1.
Proof.
  destruct c1 as [[r1 g1] b1], c2 as [[r2 g2] b2].
  unfold color_distance, redmean_sum.
  rewrite (Z.add_comm r2 r1).
  replace ((r2 - r1) ^ 2) with ((r1 - r2) ^ 2) by ring.
  replace ((g2 - g1) ^ 2) with ((g1 - g2) ^ 2) by ring.
  replace ((b2 - b1) ^ 2) with ((b1 - b2) ^ 2) by ring.
  reflexivity.
Qed.

(** X13: for 8-bit colours and a C library whose [pow] keeps (0, 1]
    within [0, 1], the contrast ratio does not depend on the order of
    its two colours. *)
Theorem contrast_ratio_symmetric (c1 c2 : color) :
  pow_within_unit libm_pow -> rgb8 c1 -> rgb8 c2 ->
  contrast_ratio libm_pow c1 c2 = contrast_ratio libm_pow c2 c1.
Proof.
  intros Hpow H1 H2. destruct c1 as [[r1 g1] b1], c2 as [[r2 g2] b2].
  unfold contrast_ratio, Py.max, Py.min, Py.gt, Py.lt.
  set (l1 := relative_luminance libm_pow r1 g1 b1).
  set (l2 := relative_luminance libm_pow r2 g2 b2).
  assert (Hself : forall l, Binary64.fsmall 6 l ->
            ((l + 0.05) / (l + 0.05))%float = 1%float).
  { intros l Hl. apply Rounding.div_self.
    apply (Rounding.add_positive 6); try exact Hl; try lia;
      [apply Rounding.smallb_small; vm_compute; reflexivity
      | vm_compute; exact I]. }
  pose proof (Hself l1 (ColorFacts.luminance_small libm_pow Hpow _ _ _ H1)).
  pose proof (Hself l2 (ColorFacts.luminance_small libm_pow Hpow _ _ _ H2)).
  destruct (PrimFloat.ltb l1 l2), (PrimFloat.ltb l2 l1); congruence.
Qed.

End TierFacts.

Lemma contrast_ratio_symmetric_witness :
  pow_within_unit pow_sample
  /\ rgb8 (252, 252, 252) /\ rgb8 (12, 12, 36)
  /\ contrast_ratio pow_sample (252, 252, 252) (12, 12, 36)
     = contrast_ratio pow_sample (12, 12, 36) (252, 252, 252).
Proof.
  assert (H1 : rgb8 (252, 252, 252)) by (cbn; unfold channel8; lia).
  assert (H2 : rgb8 (12, 12, 36)) by (cbn; unfold channel8; lia).
  split; [exact pow_sample_unit|]. split; [exact H1|]. split; [exact H2|].
  exact (contrast_ratio_symmetric pow_sample _ _ pow_sample_unit H1 H2).
Defined.

(** ** The two strings *)

Lemma format_color_well_formed c :
  rgb8 c -> is_color_string (format_color c) = true.
Proof.
  destruct c as [[r g] b]. intros (Hr & Hg & Hb). unfold format_color.
  assert (H : forall x, channel8 x ->
            exists a1 a2, format_02x x = String a1 (String a2 EmptyString)
                          /\ is_lower_hex a1 = true /\ is_lower_hex a2 = true).
  { intros x Hx.
    assert (Hc : two_hex_digits_check x = true).
    { revert x Hx. apply all_channels_forallb. vm_compute. reflexivity. }
    unfold two_hex_digits_check in Hc.
    destruct (format_02x x) as [|a1 [|a2 [|? ?]]]; try discriminate.
    apply andb_prop in Hc. exists a1, a2. tauto. }
  destruct (H r Hr) as (r1 & r2 & -> & Hr1 & Hr2).
  destruct (H g Hg) as (g1 & g2 & -> & Hg1 & Hg2).
  destruct (H b Hb) as (b1 & b2 & -> & Hb1 & Hb2).
  cbn [String.append is_color_string forallb].
  now rewrite Hr1, Hr2, Hg1, Hg2, Hb1, Hb2.
Qed.

(** X14: for every sequence of 8-bit pixels, the empty one included,
    both strings returned match [0xff] followed by six lowercase
    hexadecimal digits. *)
Theorem output_well_formed (libm_pow : float -> float -> float)
    (min_contrast : float) (min_distance : Z) (data : list color) :
  Forall rgb8 data ->
  is_color_string (fst (colors_of_data libm_pow min_contrast min_distance
                                       data)) = true
  /\ is_color_string (snd (colors_of_data libm_pow min_contrast min_distance
                                          data)) = true.
Proof.
  intros Hdata.
  destruct (ranked_histogram data) as [|[primary n] others] eqn:Hranked.
  - unfold colors_of_data. rewrite Hranked. split; reflexivity.
  - destruct (colors_of_data_chosen libm_pow min_contrast min_distance data
                primary n others Hdata Hranked)
      as (fg & bg & _ & Hfg & Hbg & ->).
    cbn [fst snd]. split; apply format_color_well_formed.
    + now apply in_palette_rgb8.
    + now apply darken_rgb8, in_palette_rgb8.
Qed.

Lemma output_well_formed_witness :
  Forall rgb8 data_sample
  /\ is_color_string (fst (colors_of_data pow_sample 3.0 80 data_sample))
     = true.
Proof.
  split; [exact data_sample_rgb8|].
  exact (proj1 (output_well_formed pow_sample 3.0 80 data_sample
                  data_sample_rgb8)).
Defined.

Lemma palette_channel_range x : In x palette_channels -> 12 <= x <= 252.
Proof.
  assert (H : Forall (fun x => 12 <= x <= 252) palette_channels)
    by (repeat constructor; lia).
  rewrite Forall_forall in H. apply H.
Qed.

Lemma palette_darkened_range x :
  In x palette_channels -> 9 <= darken_channel x <= 189.
Proof.
  intros Hx. pose proof (palette_channel_range x Hx).
  rewrite darken_channel_floor by (unfold channel8; lia).
  unfold three_quarters_floor.
  assert (9 <= 3 * x / 4 <= 189); [|lia].
  split; [apply Z.div_le_lower_bound | apply Z.div_le_upper_bound]; lia.
Qed.

(** X15: when there is at least one 8-bit pixel, the channels of the
    emitted foreground lie between 12 and 252 and those of the emitted
    background between 9 and 189: the foreground is never black and the
    background never lighter than 0xbdbdbd. *)
Theorem output_channel_ranges (libm_pow : float -> float -> float)
    (min_contrast : float) (min_distance : Z) (data : list color) :
  Forall rgb8 data -> data <> [] ->
  exists fg bg,
    channels_of_hex (fst (colors_of_data libm_pow min_contrast min_distance
                                         data)) = Some fg
    /\ channels_of_hex (snd (colors_of_data libm_pow min_contrast
                                            min_distance data)) = Some bg
    /\ channels_within 12 252 fg
    /\ channels_within 9 189 bg.
Proof.
  intros Hdata Hne.
  destruct (ranked_histogram data) as [|[primary n] others] eqn:Hranked;
    [now apply ranked_histogram_nil in Hranked|].
  destruct (colors_of_data_chosen libm_pow min_contrast min_distance data
              primary n others Hdata Hranked)
    as (fg & bg & _ & Hfg & Hbg & ->).
  exists fg, (darken bg). cbn [fst snd].
  rewrite !channels_of_hex_format
    by (try apply darken_rgb8; now apply in_palette_rgb8).
  split; [reflexivity | split; [reflexivity|]].
  destruct fg as [[fr fg'] fb], bg as [[br bg'] bb].
  destruct Hfg as (? & ? & ?), Hbg as (? & ? & ?).
  unfold darken, map3, channels_within.
  repeat split; try (now apply palette_channel_range);
    now apply palette_darkened_range.
Qed.

Lemma output_channel_ranges_witness :
  Forall rgb8 data_sample /\ data_sample <> []
  /\ exists fg bg,
       channels_of_hex (fst (colors_of_data pow_sample 3.0 80 data_sample))
       = Some fg
       /\ channels_of_hex (snd (colors_of_data pow_sample 3.0 80 data_sample))
          = Some bg
       /\ channels_within 12 252 fg
       /\ channels_within 9 189 bg.
Proof.
  split; [exact data_sample_rgb8|].
  assert (Hne : data_sample <> []) by discriminate.
  split; [exact Hne|].
  exact (output_channel_ranges pow_sample 3.0 80 data_sample
           data_sample_rgb8 Hne).
Defined.

(** X16: on 8-bit pixels the hardcoded pair is returned exactly when
    there is no pixel at all. *)
Theorem fallback_iff_empty (libm_pow : float -> float -> float)
    (min_contrast : float) (min_distance : Z) (data : list color) :
  Forall rgb8 data ->
  (colors_of_data libm_pow min_contrast min_distance data = fallback_pair
   <-> data = []).
Proof.
  intros Hdata. split; [|intros ->; reflexivity].
  intros Heq.
  destruct (ranked_histogram data) as [|[primary n] others] eqn:Hranked;
    [now apply ranked_histogram_nil in Hranked|].
  destruct (colors_of_data_chosen libm_pow min_contrast min_distance data
              primary n others Hdata Hranked)
    as (fg & bg & _ & Hfg & _ & Hout).
  rewrite Hout in Heq. injection Heq as Hf _.
  change "0xff888888"%string with (format_color (136, 136, 136)) in Hf.
  apply format_color_inj in Hf;
    [|now apply in_palette_rgb8 | cbn; unfold channel8; lia].
  subst fg. destruct Hfg as (H136 & _).
  cbn in H136. intuition discriminate.
Qed.

Lemma fallback_iff_empty_witness :
  Forall rgb8 data_sample
  /\ (colors_of_data pow_sample 3.0 80 data_sample = fallback_pair
      <-> data_sample = []).
Proof.
  split; [exact data_sample_rgb8|].
  exact (fallback_iff_empty pow_sample 3.0 80 data_sample data_sample_rgb8).
Defined.

Lemma quantize_quantize p : rgb8 p -> quantize (quantize p) = quantize p.
Proof.
  assert (H : forall x, channel8 x ->
    quantize_channel 24 (quantize_channel 24 x) = quantize_channel 24 x).
  { intros x Hx. rewrite (quantize_channel_24 x Hx).
    unfold channel8 in Hx.
    assert (0 <= x / 24 < 11)
      by (split; [apply Z.div_pos | apply Z.div_lt_upper_bound]; lia).
    rewrite quantize_channel_24 by (unfold channel8; lia).
    replace ((x / 24 * 24 + 12) / 24) with (x / 24); [reflexivity|].
    apply (Z.div_unique _ _ _ 12); lia. }
  destruct p as [[r g] b]. intros (Hr & Hg & Hb).
  unfold quantize, quantize_step, map3. now rewrite !H.
Qed.

(** X17: quantizing the 8-bit pixels beforehand changes nothing: the
    result depends on the pixels through their buckets only. *)
Theorem prequantized_same_colors (libm_pow : float -> float -> float)
    (min_contrast : float) (min_distance : Z) (data : list color) :
  Forall rgb8 data ->
  colors_of_data libm_pow min_contrast min_distance (map quantize data)
  = colors_of_data libm_pow min_contrast min_distance data.
Proof.
  intros Hdata. unfold colors_of_data, ranked_histogram. do 3 f_equal.
  rewrite map_map. apply map_ext_in. intros p Hp.
  rewrite Forall_forall in Hdata. now apply quantize_quantize, Hdata.
Qed.

Lemma prequantized_same_colors_witness :
  Forall rgb8 data_sample
  /\ colors_of_data pow_sample 3.0 80 (map quantize data_sample)
     = colors_of_data pow_sample 3.0 80 data_sample.
Proof.
  split; [exact data_sample_rgb8|].
  exact (prequantized_same_colors pow_sample 3.0 80 data_sample
           data_sample_rgb8).
Defined.

(** X18: the primary and the secondary colour of 8-bit pixels are two
    different colours. *)
Theorem pair_distinct (libm_pow : float -> float -> float)
    (min_contrast : float) (min_distance : Z) (data : list color)
    (primary : color) (n : Z) (others : list (color * Z)) :
  Forall rgb8 data ->
  ranked_histogram data = (primary, n) :: others ->
  snd (choose_pair libm_pow min_contrast min_distance primary others)
  <> primary.
Proof.
  intros Hdata Hranked.
  pose proof (ranked_keys_NoDup data) as Hnd. rewrite Hranked in Hnd.
  cbn [map fst] in Hnd. apply NoDup_cons_iff in Hnd as [Hnotin _].
  assert (Hbucket : In primary all_buckets).
  { assert (Hin : In (primary, n) (ranked_histogram data))
      by (rewrite Hranked; now left).
    unfold ranked_histogram in Hin.
    apply (proj1 (most_common_In _ _)) in Hin.
    apply Counter_keys, in_map_iff in Hin as (p & <- & Hp).
    rewrite Forall_forall in Hdata. now apply quantize_in_all_buckets, Hdata. }
  assert (Hother : forall c, (exists m, In (c, m) others) -> c <> primary).
  { intros c (m & Hm) ->. apply Hnotin, in_map_iff. now exists (primary, m). }
  assert (Hsyn : forall v, In (v, v, v) all_buckets -> In v bucket_levels).
  { intros v Hv. unfold all_buckets in Hv. now apply in_prod_iff in Hv. }
  unfold choose_pair. cbn [snd].
  destruct (scan_pass libm_pow primary min_contrast _ others) as [c|] eqn:H1.
  - apply Hother. exact (scan_pass_In _ _ _ _ _ _ H1).
  - destruct (scan_pass libm_pow primary 2 _ others) as [c|] eqn:H2.
    + apply Hother. exact (scan_pass_In _ _ _ _ _ _ H2).
    + destruct (Py.gt _ _); intros <-; apply Hsyn in Hbucket;
        cbn in Hbucket; intuition discriminate.
Qed.

Lemma pair_distinct_witness :
  Forall rgb8 data_sample
  /\ ranked_histogram data_sample
     = ((252, 252, 252), 2) :: [((12, 12, 36), 2); ((204, 36, 36), 1)]
  /\ snd (choose_pair pow_sample 3.0 80 (252, 252, 252)
            [((12, 12, 36), 2); ((204, 36, 36), 1)])
     <> (252, 252, 252).
Proof.
  split; [exact data_sample_rgb8|]. split; [exact data_sample_ranked|].
  exact (pair_distinct pow_sample 3.0 80 data_sample (252, 252, 252) 2
           [((12, 12, 36), 2); ((204, 36, 36), 1)]
           data_sample_rgb8 data_sample_ranked).
Defined.

Lemma output_well_formed_on_image (libm_pow : float -> float -> float)
    (resample : image -> nat -> nat -> nat -> nat -> byte * byte * byte)
    (img : image) :
  is_color_string
    (fst (colors_of_data libm_pow 3.0 80
            (getdata (resize resample img 80 80)))) = true
  /\ is_color_string
       (snd (colors_of_data libm_pow 3.0 80
               (getdata (resize resample img 80 80)))) = true.
Proof.
  destruct (ranked_histogram (getdata (resize resample img 80 80)))
    as [|[primary n] others] eqn:Hranked.
  - unfold colors_of_data. rewrite Hranked. split; reflexivity.
  - destruct (colors_of_data_chosen libm_pow 3.0 80 _ primary n others
                (getdata_rgb8 _) Hranked)
      as (fg & bg & _ & Hfg & Hbg & ->).
    cbn [fst snd]. split; apply format_color_well_formed.
    + now apply in_palette_rgb8.
    + now apply darken_rgb8, in_palette_rgb8.
Qed.

(** ** Which channels reach the C library *)

(** X19: on an 8-bit channel [linearize] divides by 12.92 up to 10,
    calls the C library's [pow] from 11 to 254, and returns 1.0 for 255
    without calling it: the luminance of a colour whose channels are all
    at most 10 or 255 does not depend on the C library. *)
Theorem linearize_branches (libm_pow : float -> float -> float) (c : Z) :
  channel8 c ->
  linearize libm_pow c
  = if c <=? 10 then (Py.float_of_int c / 255.0 / 12.92)%float
    else if c =? 255 then 1%float
    else libm_pow ((Py.float_of_int c / 255.0 + 0.055) / 1.055)%float
                  2.4%float.
Proof.
  intros Hc.
  assert (H : linearize_branch_check c = true).
  { revert c Hc. apply all_channels_forallb. vm_compute. reflexivity. }
  unfold linearize_branch_check in H. unfold linearize, Py.float_pow.
  destruct (c <=? 10).
  - now rewrite H.
  - apply andb_prop in H as [H H1]. apply andb_prop in H as [Hle H0].
    apply negb_true_iff in Hle, H0. apply Bool.eqb_prop in H1.
    rewrite Hle, H0, H1. reflexivity.
Qed.

Lemma linearize_branches_witness :
  channel8 128
  /\ linearize pow_sample 128
     = pow_sample ((Py.float_of_int 128 / 255.0 + 0.055) / 1.055)%float
                  2.4%float.
Proof.
  assert (H : channel8 128) by (unfold channel8; lia).
  split; [exact H|]. exact (linearize_branches pow_sample 128 H).
Defined.

(** ** The command line *)

Section CLIFacts.

Variable libm_pow : float -> float -> float.
Variable Image_open_RGB_result : string -> string + image.
Variable resample : image -> nat -> nat -> nat -> nat -> byte * byte * byte.

#[local] Abbreviation run := (main libm_pow Image_open_RGB_result resample).

(** X20: a run either exits with 0, two lines on standard output and
    nothing on standard error, which happens exactly when a path is
    given and its image loads; or exits with 1 and nothing on standard
    output, with the usage line when no path is given and the line
    [Error: <text of the exception>] when the load fails. *)
Theorem main_outcome_shape (argv : list string) :
  (out_exit (run argv) = 0
   /\ List.length (out_stdout (run argv)) = 2%nat
   /\ out_stderr (run argv) = []
   /\ exists prog path rest img,
        argv = prog :: path :: rest /\ Image_open_RGB_result path = inr img)
  \/ (out_exit (run argv) = 1
      /\ out_stdout (run argv) = []
      /\ ((out_stderr (run argv) = [usage_line]
           /\ (List.length argv < 2)%nat)
          \/ exists prog path rest message,
               argv = prog :: path :: rest
               /\ Image_open_RGB_result path = inl message
               /\ out_stderr (run argv) = [("Error: " ++ message)%string])).
Proof.
  destruct argv as [|prog [|path rest]].
  - right. cbn. repeat split; left; split; [reflexivity | lia].
  - right. cbn. repeat split; left; split; [reflexivity | lia].
  - unfold main, try_extract_colors.
    destruct (Image_open_RGB_result path) as [message | img] eqn:Hopen.
    + right. cbn. repeat split. right. now exists prog, path, rest, message.
    + left. destruct (colors_of_data _ _ _ _) as [fg bg]. cbn.
      repeat split. now exists prog, path, rest, img.
Qed.

(** X21: when a run exits with 0, its two lines are [DOMINANT=] and
    [BACKGROUND=] followed by the two strings [extract_colors] returns
    for the first argument, each matching [0xff] and six lowercase
    hexadecimal digits. *)
Theorem main_success_lines (argv : list string) :
  out_exit (run argv) = 0 ->
  exists fg bg,
    out_stdout (run argv)
    = [("DOMINANT=" ++ fg)%string; ("BACKGROUND=" ++ bg)%string]
    /\ extract_colors libm_pow (Image_open_of_result Image_open_RGB_result)
         resample (nth 1 argv EmptyString) = Some (fg, bg)
    /\ is_color_string fg = true
    /\ is_color_string bg = true.
Proof.
  destruct argv as [|prog [|path rest]]; try discriminate.
  unfold main, try_extract_colors, extract_colors,
    extract_colors_with, Image_open_of_result. cbn [nth].
  destruct (Image_open_RGB_result path) as [message | img]; [discriminate|].
  intros _.
  pose proof (output_well_formed_on_image libm_pow resample img) as [Hf Hb].
  destruct (colors_of_data _ _ _ _) as [fg bg]. cbn [fst snd] in *.
  exists fg, bg. cbn. auto.
Qed.

End CLIFacts.

Lemma main_success_lines_witness :
  out_exit (main pow_sample open_result_sample resample_nearest
              ["color_extractor.py"; "wallpaper.png"]%string) = 0
  /\ exists fg bg,
       out_stdout (main pow_sample open_result_sample resample_nearest
                     ["color_extractor.py"; "wallpaper.png"]%string)
       = [("DOMINANT=" ++ fg)%string; ("BACKGROUND=" ++ bg)%string]
       /\ is_color_string fg = true
       /\ is_color_string bg = true.
Proof.
  assert (H : out_exit (main pow_sample open_result_sample resample_nearest
                          ["color_extractor.py"; "wallpaper.png"]%string) = 0)
    by (vm_compute; reflexivity).
  split; [exact H|].
  destruct (main_success_lines pow_sample open_result_sample resample_nearest
              ["color_extractor.py"; "wallpaper.png"]%string H)
    as (fg & bg & Hout & _ & Hf & Hb).
  exists fg, bg. auto.
Defined.

Example main_samples :
  main pow_sample open_result_sample resample_nearest
    ["color_extractor.py"; "wallpaper.png"]%string
  = {| out_stdout := ["DOMINANT=0xfffcfcfc"; "BACKGROUND=0xff090909"]%string;
       out_stderr := [];
       out_exit := 0 |}
  /\ main pow_sample open_result_sample resample_nearest
       ["color_extractor.py"; "missing.png"]%string
     = {| out_stdout := [];
          out_stderr :=
            ["Error: [Errno 2] No such file or directory: missing.png"]%string;
          out_exit := 1 |}
  /\ main pow_sample open_result_sample resample_nearest
       ["color_extractor.py"]%string
     = {| out_stdout := []; out_stderr := [usage_line]; out_exit := 1 |}.
Proof. repeat split; vm_compute; reflexivity. Qed.
